(** * mcp-openproject: backend client, MCP core and stdio loop

    A shallow embedding of the parts of the server that its specification
    makes promises about:

    - [openproject_client.py]: the typed views, the two extraction
      functions, [get_project], [get_work_packages] (each under the
      [backoff.on_exception] decorator), [get_weekly_report] and the
      semaphore of [HTTPClientManager];
    - [mcp_core.py]: [_list_tools], [_call_tool] and its three handlers;
    - [fastapi_mcp_server.py]: the two tool handlers and the read loop
      [handle_stdio_mode].

    Python values are an inductive type, exceptions are an inductive type
    with the class hierarchy as a boolean [isinstance], and effectful code
    lives in a state-and-exception monad over a [World] that records every
    client operation, every request handed to the generated API client and
    every back-off sleep. *)

From Stdlib Require Import ZArith List String Ascii Bool Lia DecimalString.
Import ListNotations.

Set Warnings "-register-all".

Open Scope string_scope.

(* ================================================================== *)
(** * Python values *)
(* ================================================================== *)

Module Py.

(** The values that travel through the server: what [json.loads] yields,
    plus attribute-bearing objects (the model instances of the generated
    API client, which answer [hasattr(x, '__dict__')]).  A dict keeps its
    insertion order; keys are strings throughout the program.  A float is
    kept as the decimal text it was read from. *)
Inductive PyVal : Type :=
| PyNone
| PyBool (b : bool)
| PyInt (n : Z)
| PyFloat (lexeme : string)
| PyStr (s : string)
| PyList (items : list PyVal)
| PyDict (entries : list (string * PyVal))
| PyObj (attrs : list (string * PyVal)).

Definition Dict := list (string * PyVal).

Fixpoint lookup {A : Type} (k : string) (d : list (string * A)) : option A :=
  match d with
  | [] => None
  | (k', v) :: rest => if String.eqb k k' then Some v else lookup k rest
  end.

(** [d.get(k)] and [d.get(k, default)]. *)
Definition dict_get (d : Dict) (k : string) : PyVal :=
  match lookup k d with Some v => v | None => PyNone end.

Definition dict_get_or (d : Dict) (k : string) (default : PyVal) : PyVal :=
  match lookup k d with Some v => v | None => default end.

(** [hasattr(x, name)] and [getattr(x, name, default)] for the data
    attributes the program asks for ([id], [name], [subject], [elements],
    ...): only objects carry them. *)
Definition hasattr (x : PyVal) (name : string) : bool :=
  match x with
  | PyObj attrs => match lookup name attrs with Some _ => true | None => false end
  | _ => false
  end.

Definition getattr (x : PyVal) (name : string) (default : PyVal) : PyVal :=
  match x with
  | PyObj attrs => match lookup name attrs with Some v => v | None => default end
  | _ => default
  end.

(** [hasattr(x, '__dict__')]: true of class instances, false of the
    builtin values. *)
Definition has_dunder_dict (x : PyVal) : bool :=
  match x with PyObj _ => true | _ => false end.

Definition is_dict (x : PyVal) : bool :=
  match x with PyDict _ => true | _ => false end.

Definition is_list (x : PyVal) : bool :=
  match x with PyList _ => true | _ => false end.

(** A float read from text is zero when its mantissa has no digit other
    than 0; [NaN] and the infinities are not zero. *)
Fixpoint mantissa_nonzero (cs : string) : bool :=
  match cs with
  | EmptyString => false
  | String c rest =>
      if (Ascii.eqb c "e" || Ascii.eqb c "E")%bool then false
      else if (Ascii.eqb c "N" || Ascii.eqb c "I")%bool then true
      else if (Nat.leb 49 (nat_of_ascii c) && Nat.leb (nat_of_ascii c) 57)%bool
           then true
           else mantissa_nonzero rest
  end.

(** Truth value testing, as [not x] and [x or y] use it. *)
Definition truthy (x : PyVal) : bool :=
  match x with
  | PyNone => false
  | PyBool b => b
  | PyInt n => negb (Z.eqb n 0)
  | PyFloat l => mantissa_nonzero l
  | PyStr s => negb (String.eqb s "")
  | PyList l => match l with [] => false | _ => true end
  | PyDict d => match d with [] => false | _ => true end
  | PyObj _ => true
  end.

(** [x or y]. *)
Definition py_or (x y : PyVal) : PyVal := if truthy x then x else y.

(** [x == "literal"]. *)
Definition eq_str (x : PyVal) (lit : string) : bool :=
  match x with PyStr s => String.eqb s lit | _ => false end.

Definition str_of_Z (n : Z) : string := NilZero.string_of_int (Z.to_int n).

Definition str_of_nat (n : nat) : string := NilZero.string_of_uint (Nat.to_uint n).

Fixpoint join (sep : string) (parts : list string) : string :=
  match parts with
  | [] => ""
  | [p] => p
  | p :: rest => p ++ sep ++ join sep rest
  end.

(** [repr(x)]; strings are quoted without escape processing, objects
    print as a placeholder. *)
Fixpoint py_repr (x : PyVal) : string :=
  match x with
  | PyNone => "None"
  | PyBool true => "True"
  | PyBool false => "False"
  | PyInt n => str_of_Z n
  | PyFloat l => l
  | PyStr s => "'" ++ s ++ "'"
  | PyList l => "[" ++ join ", " (map py_repr l) ++ "]"
  | PyDict d =>
      "{" ++ join ", "
        (map (fun kv => match kv with (k, v) => "'" ++ k ++ "': " ++ py_repr v end) d)
      ++ "}"
  | PyObj _ => "<object>"
  end.

(** [str(x)], as f-strings apply it. *)
Definition py_str (x : PyVal) : string :=
  match x with
  | PyStr s => s
  | _ => py_repr x
  end.

(** Whether [json.dumps] accepts the value: everything but objects. *)
Fixpoint serializable (x : PyVal) : bool :=
  match x with
  | PyList l => forallb serializable l
  | PyDict d => forallb (fun kv => serializable (snd kv)) d
  | PyObj _ => false
  | _ => true
  end.

Definition all_serializable (d : Dict) : bool :=
  forallb (fun kv => serializable (snd kv)) d.

(** ** Exceptions *)

(** [OpenProjectError], the dataclass of [openproject_client.py]. *)
Record OpenProjectError := mkOpenProjectError {
  status_code : Z;
  error_code : option string;
  message : string;
  details : option Dict
}.

(** The exception classes the modelled code raises, catches or lets
    through.  [ValidationError] is the class [fastapi_mcp_server.py]
    imports under that name; [PydanticValidationError] is the one a model
    constructor raises.  Two classes are called [AuthenticationError]:
    the one of [security.py], a subclass of [SecurityError], and the one
    [openproject_client.py] defines for itself, a direct subclass of
    [Exception], when its import of [get_config] from [config.py] fails;
    [config.py] has no such name, so the import always fails and the
    client always raises its own class, here
    [ClientAuthenticationError]. *)
Inductive Exn : Type :=
| ValueError (msg : string)
| KeyError (msg : string)
| TypeError (msg : string)
| AttributeError (msg : string)
| JSONDecodeError (msg : string)
| PydanticValidationError (msg : string)
| ValidationError (msg : string)
| SecurityError (msg : string)
| AuthenticationError (msg : string)
| ClientAuthenticationError (msg : string)
| RequestError (msg : string)
| ApiException (status : Z) (msg : string)
| OpenProjectClientError (msg : string) (error : option OpenProjectError)
| OpenProjectConnectionError (msg : string) (error : option OpenProjectError)
| OpenProjectAuthenticationError (msg : string) (error : option OpenProjectError)
| OpenProjectRateLimitError (msg : string) (error : option OpenProjectError).

Inductive ExnClass : Type :=
| CException | CValueError | CKeyError | CTypeError | CAttributeError
| CJSONDecodeError | CPydanticValidationError | CValidationError
| CSecurityError | CAuthenticationError | CRequestError | CApiException
| COpenProjectClientError | COpenProjectConnectionError
| COpenProjectAuthenticationError | COpenProjectRateLimitError.

(** [isinstance(e, cls)]: [JSONDecodeError] and pydantic's validation
    error derive from [ValueError], the [AuthenticationError] of
    [security.py] from [SecurityError], the three specialised client
    errors from [OpenProjectClientError].  The client's own
    [AuthenticationError] derives from [Exception] alone: it is an
    instance of neither class of [security.py]. *)
Definition isinstance (e : Exn) (c : ExnClass) : bool :=
  match c, e with
  | CException, _ => true
  | CValueError, (ValueError _ | JSONDecodeError _ | PydanticValidationError _) => true
  | CKeyError, KeyError _ => true
  | CTypeError, TypeError _ => true
  | CAttributeError, AttributeError _ => true
  | CJSONDecodeError, JSONDecodeError _ => true
  | CPydanticValidationError, PydanticValidationError _ => true
  | CValidationError, ValidationError _ => true
  | CSecurityError, (SecurityError _ | AuthenticationError _) => true
  | CAuthenticationError, AuthenticationError _ => true
  | CRequestError, RequestError _ => true
  | CApiException, ApiException _ _ => true
  | COpenProjectClientError,
    (OpenProjectClientError _ _ | OpenProjectConnectionError _ _
     | OpenProjectAuthenticationError _ _ | OpenProjectRateLimitError _ _) => true
  | COpenProjectConnectionError, OpenProjectConnectionError _ _ => true
  | COpenProjectAuthenticationError, OpenProjectAuthenticationError _ _ => true
  | COpenProjectRateLimitError, OpenProjectRateLimitError _ _ => true
  | _, _ => false
  end.

(** [isinstance(e, (c1, c2, ...))]. *)
Definition isinstance_any (e : Exn) (cs : list ExnClass) : bool :=
  existsb (isinstance e) cs.

(** [str(e)]. *)
Definition exn_str (e : Exn) : string :=
  match e with
  | ValueError m | KeyError m | TypeError m | AttributeError m
  | JSONDecodeError m | PydanticValidationError m | ValidationError m
  | SecurityError m | AuthenticationError m | ClientAuthenticationError m
  | RequestError m => m
  | ApiException _ m => m
  | OpenProjectClientError m _ | OpenProjectConnectionError m _
  | OpenProjectAuthenticationError m _ | OpenProjectRateLimitError m _ => m
  end.

(** What a call yields when it can raise. *)
Inductive Outcome (A : Type) : Type :=
| Return (a : A)
| Raise (e : Exn).

Arguments Return {A} a.
Arguments Raise {A} e.

Definition obind {A B : Type} (o : Outcome A) (k : A -> Outcome B) : Outcome B :=
  match o with
  | Return a => k a
  | Raise e => Raise e
  end.

(** [x.get(k, default)] on an arbitrary value: only a dict has the
    method. *)
Definition get_method (x : PyVal) (k : string) (default : PyVal) : Outcome PyVal :=
  match x with
  | PyDict d => Return (dict_get_or d k default)
  | _ => Raise (AttributeError "object has no attribute 'get'")
  end.

(** [for item in x]: the items a loop over the value visits. *)
Definition iterate (x : PyVal) : Outcome (list PyVal) :=
  match x with
  | PyList l => Return l
  | PyDict d => Return (map (fun kv => PyStr (fst kv)) d)
  | PyStr s => Return (map (fun c => PyStr (String c EmptyString)) (list_ascii_of_string s))
  | _ => Raise (TypeError "object is not iterable")
  end.

End Py.

(* ================================================================== *)
(** * [json.loads] and [str.strip] *)
(* ================================================================== *)

Module Json.
Import Py.

#[local] Open Scope list_scope.

Definition code (c : ascii) : nat := nat_of_ascii c.

(** The double quote that delimits a JSON string. *)
Definition quote : ascii := ascii_of_nat 34.

Definition is_json_ws (c : ascii) : bool :=
  let n := code c in
  (Nat.eqb n 32 || Nat.eqb n 9 || Nat.eqb n 10 || Nat.eqb n 13)%bool.

(** A [str] is kept as the bytes of its UTF-8 encoding, one [ascii] a
    byte: a character below U+0080 is one byte, the others two to
    four. *)

(** [str.isspace] on one code point, which is the test [str.strip()]
    applies to a character: the tab to the carriage return, the four
    separators U+001C to U+001F, the space, and beyond ASCII U+0085,
    U+00A0, U+1680, U+2000 to U+200A, U+2028, U+2029, U+202F, U+205F
    and U+3000. *)
Definition isspace (cp : N) : bool :=
  ((9 <=? cp) && (cp <=? 13) || (28 <=? cp) && (cp <=? 32)
   || (cp =? 133) || (cp =? 160) || (cp =? 5760)
   || (8192 <=? cp) && (cp <=? 8202)
   || (cp =? 8232) || (cp =? 8233) || (cp =? 8239) || (cp =? 8287)
   || (cp =? 12288))%N.

(** The six bits a continuation byte carries. *)
Definition continuation (c : ascii) : option N :=
  let n := N_of_ascii c in
  if ((128 <=? n) && (n <? 192))%N then Some (n - 128)%N else None.

(** The code point that one, two or three bytes encode.  No character
    that [str.strip()] removes lies beyond U+FFFF, so four bytes are
    never a space. *)
Definition code_point (bytes : list ascii) : option N :=
  match bytes with
  | [a] => if (N_of_ascii a <? 128)%N then Some (N_of_ascii a) else None
  | [a; b] =>
      let n := N_of_ascii a in
      match continuation b with
      | Some x =>
          if ((194 <=? n) && (n <? 224))%N then Some ((n - 192) * 64 + x)%N else None
      | None => None
      end
  | [a; b; c] =>
      let n := N_of_ascii a in
      match continuation b, continuation c with
      | Some x, Some y =>
          let cp := (((n - 224) * 64 + x) * 64 + y)%N in
          if ((224 <=? n) && (n <? 240) && (2048 <=? cp))%N then Some cp else None
      | _, _ => None
      end
  | _ => None
  end.

(** The bytes are one character, and [str.strip()] removes it. *)
Definition is_py_space (bytes : list ascii) : bool :=
  match code_point bytes with
  | Some cp => isspace cp
  | None => false
  end.

Definition is_digit (c : ascii) : bool :=
  (Nat.leb 48 (code c) && Nat.leb (code c) 57)%bool.

Fixpoint drop_while (p : ascii -> bool) (cs : list ascii) : list ascii :=
  match cs with
  | [] => []
  | c :: rest => if p c then drop_while p rest else cs
  end.

Definition skip_ws (cs : list ascii) : list ascii := drop_while is_json_ws cs.

(** The text without the spaces at its head.  [order] is the identity
    on text read from its start, and [rev] on text read from its end,
    where the bytes of a character arrive last byte first. *)
Fixpoint drop_spaces (order : list ascii -> list ascii) (cs : list ascii) : list ascii :=
  match cs with
  | [] => []
  | a :: r1 =>
      if is_py_space (order [a]) then drop_spaces order r1
      else
        match r1 with
        | [] => cs
        | b :: r2 =>
            if is_py_space (order [a; b]) then drop_spaces order r2
            else
              match r2 with
              | [] => cs
              | c :: r3 =>
                  if is_py_space (order [a; b; c]) then drop_spaces order r3 else cs
              end
        end
  end.

Definition lstrip (cs : list ascii) : list ascii := drop_spaces (fun bytes => bytes) cs.

Definition rstrip (cs : list ascii) : list ascii :=
  rev (drop_spaces (@rev ascii) (rev cs)).

(** [line.strip()]: the spaces at both ends go, those of ASCII and the
    others alike. *)
Definition strip (s : string) : string :=
  string_of_list_ascii (rstrip (lstrip (list_ascii_of_string s))).

Fixpoint strip_prefix (p cs : list ascii) : option (list ascii) :=
  match p, cs with
  | [], _ => Some cs
  | a :: p', c :: cs' => if Ascii.eqb a c then strip_prefix p' cs' else None
  | _ :: _, [] => None
  end.

Fixpoint take_digits (cs : list ascii) : list ascii * list ascii :=
  match cs with
  | c :: rest =>
      if is_digit c then let (ds, r) := take_digits rest in (c :: ds, r)
      else ([], cs)
  | [] => ([], [])
  end.

Definition digits_value (ds : list ascii) : Z :=
  fold_left (fun acc c => (10 * acc + Z.of_nat (code c - 48))%Z) ds 0%Z.

(** A number: an optional minus sign, then 0 or a digit string without
    leading zero, then an optional fraction (a dot and at least one
    digit), then an optional exponent (e or E, an optional sign, at
    least one digit).  An int when neither fraction nor exponent is
    present, a float otherwise. *)
Definition scan_number (cs : list ascii) : option (PyVal * list ascii) :=
  let (neg, cs1) :=
    match cs with
    | c :: r => if Ascii.eqb c "-" then (true, r) else (false, cs)
    | [] => (false, cs)
    end in
  let int_part :=
    match cs1 with
    | c :: r =>
        if Ascii.eqb c "0" then Some ([c], r)
        else if is_digit c then let (ds, r') := take_digits r in Some (c :: ds, r')
        else None
    | [] => None
    end in
  match int_part with
  | None => None
  | Some (ids, r1) =>
      let (frac, r2) :=
        match r1 with
        | c :: r =>
            if Ascii.eqb c "." then
              match take_digits r with
              | ([], _) => ([], r1)
              | (fs, r') => (c :: fs, r')
              end
            else ([], r1)
        | [] => ([], r1)
        end in
      let (expo, r3) :=
        match r2 with
        | c :: r =>
            if (Ascii.eqb c "e" || Ascii.eqb c "E")%bool then
              let (sign, r') :=
                match r with
                | s :: r'' =>
                    if (Ascii.eqb s "+" || Ascii.eqb s "-")%bool then ([s], r'') else ([], r)
                | [] => ([], r)
                end in
              match take_digits r' with
              | ([], _) => ([], r2)
              | (es, r'') => (c :: sign ++ es, r'')
              end
            else ([], r2)
        | [] => ([], r2)
        end in
      match frac, expo with
      | [], [] =>
          Some (PyInt (if neg then Z.opp (digits_value ids) else digits_value ids), r3)
      | _, _ =>
          Some (PyFloat (string_of_list_ascii
                           ((if neg then ["-"%char] else []) ++ ids ++ frac ++ expo)), r3)
      end
  end.

Definition hex_value (c : ascii) : option N :=
  let n := N_of_ascii c in
  if (N.leb 48 n && N.leb n 57)%bool then Some (n - 48)%N
  else if (N.leb 65 n && N.leb n 70)%bool then Some (n - 55)%N
  else if (N.leb 97 n && N.leb n 102)%bool then Some (n - 87)%N
  else None.

Definition hex4 (cs : list ascii) : option (N * list ascii) :=
  match cs with
  | a :: b :: c :: d :: rest =>
      match hex_value a, hex_value b, hex_value c, hex_value d with
      | Some x, Some y, Some z, Some w =>
          Some ((((x * 16 + y) * 16 + z) * 16 + w)%N, rest)
      | _, _, _, _ => None
      end
  | _ => None
  end.

(** Strings are kept as UTF-8 bytes. *)
Definition utf8 (n : N) : list ascii :=
  let b (k : N) := ascii_of_N k in
  (if n <? 128 then [b n]
   else if n <? 2048 then [b (192 + n / 64); b (128 + n mod 64)]
   else if n <? 65536 then
     [b (224 + n / 4096); b (128 + (n / 64) mod 64); b (128 + n mod 64)]
   else [b (240 + n / 262144); b (128 + (n / 4096) mod 64);
         b (128 + (n / 64) mod 64); b (128 + n mod 64)])%N.

(** The text made of the given code points. *)
Definition encode (cps : list N) : string := string_of_list_ascii (flat_map utf8 cps).

(** A [\uXXXX] escape whose value is a high surrogate, followed by one
    whose value is a low surrogate, stands for one code point. *)
Definition surrogate_pair (hi : N) (cs : list ascii) : option (N * list ascii) :=
  if (N.leb 55296 hi && N.leb hi 56319)%bool then
    match strip_prefix ["\"%char; "u"%char] cs with
    | Some r2 =>
        match hex4 r2 with
        | Some (lo, r3) =>
            if (N.leb 56320 lo && N.leb lo 57343)%bool
            then Some ((65536 + (hi - 55296) * 1024 + (lo - 56320))%N, r3)
            else None
        | None => None
        end
    | None => None
    end
  else None.

(** The body of a string literal after its opening quote (strict mode:
    a control character ends the parse with an error). *)
Fixpoint scan_string (fuel : nat) (cs : list ascii) : option (list ascii * list ascii) :=
  match fuel with
  | O => None
  | S f =>
      match cs with
      | [] => None
      | c :: rest =>
          if Ascii.eqb c quote then Some ([], rest)
          else if Nat.ltb (code c) 32 then None
          else if Ascii.eqb c "\" then
            match rest with
            | [] => None
            | e :: rest' =>
                let simple (x : nat) :=
                  match scan_string f rest' with
                  | Some (s, r) => Some (ascii_of_nat x :: s, r)
                  | None => None
                  end in
                if Ascii.eqb e quote then simple 34
                else if Ascii.eqb e "\" then simple 92
                else if Ascii.eqb e "/" then simple 47
                else if Ascii.eqb e "b" then simple 8
                else if Ascii.eqb e "f" then simple 12
                else if Ascii.eqb e "n" then simple 10
                else if Ascii.eqb e "r" then simple 13
                else if Ascii.eqb e "t" then simple 9
                else if Ascii.eqb e "u" then
                  match hex4 rest' with
                  | None => None
                  | Some (hi, r1) =>
                      let (cp, r') :=
                        match surrogate_pair hi r1 with
                        | Some p => p
                        | None => (hi, r1)
                        end in
                      match scan_string f r' with
                      | Some (s, r) => Some (utf8 cp ++ s, r)
                      | None => None
                      end
                  end
                else None
            end
          else
            match scan_string f rest with
            | Some (s, r) => Some (c :: s, r)
            | None => None
            end
      end
  end.

Definition literals : list (string * PyVal) :=
  [("null", PyNone); ("true", PyBool true); ("false", PyBool false);
   ("NaN", PyFloat "NaN"); ("Infinity", PyFloat "Infinity");
   ("-Infinity", PyFloat "-Infinity")].

Fixpoint scan_literal (ls : list (string * PyVal)) (cs : list ascii)
  : option (PyVal * list ascii) :=
  match ls with
  | [] => None
  | (l, v) :: more =>
      match strip_prefix (list_ascii_of_string l) cs with
      | Some rest => Some (v, rest)
      | None => scan_literal more cs
      end
  end.

(** [scan_once]: one value at the head of the input, without leading
    whitespace.  A repeated key of an object keeps its first position and
    its last value. *)
Fixpoint scan_once (fuel : nat) (cs : list ascii) : option (PyVal * list ascii) :=
  match fuel with
  | O => None
  | S f =>
      match cs with
      | [] => None
      | c :: rest =>
          if Ascii.eqb c quote then
            match scan_string (S (List.length rest)) rest with
            | Some (s, r) => Some (PyStr (string_of_list_ascii s), r)
            | None => None
            end
          else if Ascii.eqb c "[" then
            match skip_ws rest with
            | c' :: r' =>
                if Ascii.eqb c' "]" then Some (PyList [], r')
                else match scan_items f (skip_ws rest) with
                     | Some (vs, r) => Some (PyList vs, r)
                     | None => None
                     end
            | [] => None
            end
          else if Ascii.eqb c "{" then
            match skip_ws rest with
            | c' :: r' =>
                if Ascii.eqb c' "}" then Some (PyDict [], r')
                else match scan_members f (skip_ws rest) with
                     | Some (d, r) => Some (PyDict d, r)
                     | None => None
                     end
            | [] => None
            end
          else
            match scan_literal literals cs with
            | Some r => Some r
            | None => scan_number cs
            end
      end
  end

with scan_items (fuel : nat) (cs : list ascii) : option (list PyVal * list ascii) :=
  match fuel with
  | O => None
  | S f =>
      match scan_once f cs with
      | None => None
      | Some (v, r) =>
          match skip_ws r with
          | c :: r' =>
              if Ascii.eqb c "]" then Some ([v], r')
              else if Ascii.eqb c "," then
                match scan_items f (skip_ws r') with
                | Some (vs, r'') => Some (v :: vs, r'')
                | None => None
                end
              else None
          | [] => None
          end
      end
  end

with scan_members (fuel : nat) (cs : list ascii) : option (Dict * list ascii) :=
  match fuel with
  | O => None
  | S f =>
      match cs with
      | q :: rest =>
          if Ascii.eqb q quote then
            match scan_string (S (List.length rest)) rest with
            | None => None
            | Some (k, r) =>
                match skip_ws r with
                | colon :: r1 =>
                    if Ascii.eqb colon ":" then
                      match scan_once f (skip_ws r1) with
                      | None => None
                      | Some (v, r2) =>
                          let key := string_of_list_ascii k in
                          match skip_ws r2 with
                          | c :: r3 =>
                              if Ascii.eqb c "}" then Some ([(key, v)], r3)
                              else if Ascii.eqb c "," then
                                match scan_members f (skip_ws r3) with
                                | Some (d, r4) =>
                                    Some ((key, match lookup key d with
                                                | Some v' => v'
                                                | None => v
                                                end)
                                          :: filter (fun kv => negb (String.eqb (fst kv) key)) d,
                                          r4)
                                | None => None
                                end
                              else None
                          | [] => None
                          end
                      end
                    else None
                | [] => None
                end
            end
          else None
      | [] => None
      end
  end.

(** [json.loads(s)]: leading whitespace, one value, trailing whitespace,
    end of input.  The text of the decode error is not reproduced. *)
Definition json_loads (s : string) : Outcome PyVal :=
  let cs := skip_ws (list_ascii_of_string s) in
  match scan_once (2 * List.length cs + 2) cs with
  | Some (v, rest) =>
      match skip_ws rest with
      | [] => Return v
      | _ => Raise (JSONDecodeError "Extra data")
      end
  | None => Raise (JSONDecodeError "Expecting value")
  end.

End Json.
(* ================================================================== *)
(** * The world: backend, trace, and the monad of effectful code *)
(* ================================================================== *)

Module Effects.
Import Py.

(** A request handed to the generated API client:
    [projects_api.get_project(project_id=...)] or
    [work_packages_api.get_work_packages(filters=..., project_id=...)]. *)
Inductive Request : Type :=
| ReqGetProject (project_id : PyVal)
| ReqGetWorkPackages (filters : PyVal) (project_id : PyVal).

(** A method of [OpenProjectClient] being entered. *)
Inductive ClientOp : Type :=
| OpGetProject (project_id : PyVal)
| OpGetWorkPackages (project_id : PyVal) (filters : PyVal)
| OpGetWeeklyReport (project_id : PyVal) (week : PyVal).

Inductive Event : Type :=
| EvCall (op : ClientOp)
| EvRequest (rq : Request)
| EvSleep (seconds : Z).

(** The backend answers a request with a value or an exception; the
    answer may depend on everything that happened before. *)
Definition Backend := list Event -> Request -> Outcome PyVal.

Record World := mkWorld {
  api_key : string;          (* the environment variable OPENPROJECT_API_KEY *)
  backend : Backend;
  trace : list Event         (* oldest first *)
}.

Definition M (A : Type) : Type := World -> Outcome A * World.

Definition ret {A : Type} (a : A) : M A := fun w => (Return a, w).

Definition raise {A : Type} (e : Exn) : M A := fun w => (Raise e, w).

Definition bind {A B : Type} (m : M A) (k : A -> M B) : M B :=
  fun w =>
    match m w with
    | (Return a, w') => k a w'
    | (Raise e, w') => (Raise e, w')
    end.

Definition lift {A : Type} (o : Outcome A) : M A := fun w => (o, w).

(** [try: body / except Exception as e: handler(e)]; what the handler
    raises leaves the statement. *)
Definition try_except {A : Type} (body : M A) (handler : Exn -> M A) : M A :=
  fun w =>
    match body w with
    | (Return a, w') => (Return a, w')
    | (Raise e, w') => handler e w'
    end.

(** The world after some more events. *)
Definition after (w : World) (evs : list Event) : World :=
  mkWorld (api_key w) (backend w) (trace w ++ evs)%list.

Definition log (ev : Event) : M unit := fun w => (Return tt, after w [ev]).

(** Handing a request to the generated API client and awaiting it.
    (The API objects are built on first use without a request; the
    generated package is taken to be installed.) *)
Definition send (rq : Request) : M PyVal :=
  fun w => (backend w (trace w) rq, after w [EvRequest rq]).

(** [await asyncio.sleep(seconds)]. *)
Definition sleep (seconds : Z) : M unit := log (EvSleep seconds).

Definition is_request (ev : Event) : bool :=
  match ev with EvRequest _ => true | _ => false end.

Definition is_sleep (ev : Event) : bool :=
  match ev with EvSleep _ => true | _ => false end.

(** How many backend requests and how many sleeps a trace holds. *)
Definition requests (t : list Event) : nat := List.length (filter is_request t).

Definition sleeps (t : list Event) : nat := List.length (filter is_sleep t).

End Effects.

Declare Scope eff_scope.
Delimit Scope eff_scope with eff.
Notation "x <- m ;; k" := (Effects.bind m (fun x => k))
  (at level 61, m at next level, right associativity) : eff_scope.
Notation "m ;;; k" := (Effects.bind m (fun _ => k))
  (at level 61, right associativity) : eff_scope.
Notation "x <~ o ;; k" := (Py.obind o (fun x => k))
  (at level 61, o at next level, right associativity) : eff_scope.

(* ================================================================== *)
(** * [backoff.on_exception] *)
(* ================================================================== *)

Module Backoff.
Import Py Effects.
#[local] Open Scope eff_scope.

(** [backoff.expo(base, factor=1, max_value)]: the n-th value the wait
    generator yields, [factor * base ** n] capped at [max_value]. *)
Definition expo (base factor max_value : Z) (n : nat) : Z :=
  let a := (factor * base ^ Z.of_nat n)%Z in
  if (a <? max_value)%Z then a else max_value.

(** The retry loop of the decorator.  [remaining] is the number of
    tries left after the one about to be made, [n] the number of waits
    taken so far.  An
    exception of a listed class is re-raised when the tries are used up,
    otherwise the loop sleeps (the value of the wait generator is the
    ceiling of the jittered delay) and calls the target again; any other
    exception passes through at once. *)
Fixpoint retry_exception {A : Type} (wait_gen : nat -> Z) (exception : list ExnClass)
    (remaining : nat) (n : nat) (target : M A) : M A :=
  fun w =>
    match target w with
    | (Return a, w') => (Return a, w')
    | (Raise e, w') =>
        if isinstance_any e exception then
          match remaining with
          | O => (Raise e, w')
          | S r =>
              (sleep (wait_gen n) ;;;
               retry_exception wait_gen exception r (S n) target) w'
          end
        else (Raise e, w')
    end.

(** [@backoff.on_exception(wait_gen, exception, max_tries=...)]. *)
Definition on_exception {A : Type} (wait_gen : nat -> Z) (exception : list ExnClass)
    (max_tries : nat) (target : M A) : M A :=
  retry_exception wait_gen exception (max_tries - 1) 0 target.

End Backoff.

(* ================================================================== *)
(** * [openproject_client.py] *)
(* ================================================================== *)

Module Client.
Import Py Effects.
#[local] Open Scope eff_scope.

(** ** The pydantic models *)

Record ProjectInfo := mkProjectInfo {
  p_id : Z;
  p_name : string;
  p_identifier : string;
  p_description : option Dict;
  p_created_at : option string;
  p_updated_at : option string
}.

Record WorkPackageInfo := mkWorkPackageInfo {
  wp_id : option Z;
  wp_subject : string;
  wp_description : option Dict;
  wp_status : option string;
  wp_priority : option string;
  wp_assignee : option string;
  wp_due_date : option string;
  wp_created_at : option string;
  wp_updated_at : option string
}.

Record WeeklyReportData := mkWeeklyReportData {
  project : ProjectInfo;
  work_packages : list WorkPackageInfo;
  week : string;
  summary : option string
}.

(** Field validation.  The checks are by type: an [int] field takes an
    int, a [str] field a string, a [Dict] field a dict.  (The conversions
    pydantic also performs, such as reading an integer from a numeric
    string, are left out; no statement below rests on an input of that
    kind being refused.) *)
Definition to_int (v : PyVal) : option Z :=
  match v with PyInt n => Some n | _ => None end.

Definition to_str (v : PyVal) : option string :=
  match v with PyStr s => Some s | _ => None end.

Definition to_dict (v : PyVal) : option Dict :=
  match v with PyDict d => Some d | _ => None end.

(** A field declared with [Field(...)]: the keyword must be given. *)
Definition required {A : Type} (field : string) (conv : PyVal -> option A)
    (kwargs : Dict) : Outcome A :=
  match lookup field kwargs with
  | None => Raise (PydanticValidationError (field ++ ": Field required"))
  | Some v =>
      match conv v with
      | Some a => Return a
      | None => Raise (PydanticValidationError (field ++ ": Input has the wrong type"))
      end
  end.

(** A field of type [Optional[T]] with default [None]. *)
Definition optional {A : Type} (field : string) (conv : PyVal -> option A)
    (kwargs : Dict) : Outcome (option A) :=
  match lookup field kwargs with
  | None => Return None
  | Some PyNone => Return None
  | Some v =>
      match conv v with
      | Some a => Return (Some a)
      | None => Raise (PydanticValidationError (field ++ ": Input has the wrong type"))
      end
  end.

(** The constructor [ProjectInfo], called with keyword arguments. *)
Definition ProjectInfo_new (kwargs : Dict) : Outcome ProjectInfo :=
  i <~ required "id" to_int kwargs ;;
  n <~ required "name" to_str kwargs ;;
  ident <~ required "identifier" to_str kwargs ;;
  d <~ optional "description" to_dict kwargs ;;
  c <~ optional "created_at" to_str kwargs ;;
  u <~ optional "updated_at" to_str kwargs ;;
  Return (mkProjectInfo i n ident d c u).

(** The constructor [WorkPackageInfo], called with keyword arguments. *)
Definition WorkPackageInfo_new (kwargs : Dict) : Outcome WorkPackageInfo :=
  i <~ optional "id" to_int kwargs ;;
  s <~ required "subject" to_str kwargs ;;
  d <~ optional "description" to_dict kwargs ;;
  st <~ optional "status" to_str kwargs ;;
  pr <~ optional "priority" to_str kwargs ;;
  a <~ optional "assignee" to_str kwargs ;;
  due <~ optional "due_date" to_str kwargs ;;
  c <~ optional "created_at" to_str kwargs ;;
  u <~ optional "updated_at" to_str kwargs ;;
  Return (mkWorkPackageInfo i s d st pr a due c u).

(** [WeeklyReportData(project=..., work_packages=..., week=..., summary=...)]
    on a project and work packages that are model instances already:
    [week] is what remains to validate. *)
Definition WeeklyReportData_new (p : ProjectInfo) (wps : list WorkPackageInfo)
    (week_value : PyVal) (summary_value : string) : Outcome WeeklyReportData :=
  match to_str week_value with
  | Some w => Return (mkWeeklyReportData p wps w (Some summary_value))
  | None => Raise (PydanticValidationError "week: Input has the wrong type")
  end.

(** [OpenProjectError(...)] called with keywords: the dataclass declares
    [status_code], [error_code] and [message] without default, so each
    of the three must be given. *)
Definition OpenProjectError_new (status_code_kw : option Z)
    (error_code_kw : option (option string)) (message_kw : option string)
    (details_kw : option (option Dict)) : Outcome OpenProjectError :=
  match status_code_kw, error_code_kw, message_kw with
  | Some sc, Some ec, Some m =>
      Return (mkOpenProjectError sc ec m
                (match details_kw with Some d => d | None => None end))
  | _, _, _ =>
      Raise (TypeError "OpenProjectError.__init__() missing required positional argument")
  end.

Definition opt_str (o : option string) : PyVal :=
  match o with Some s => PyStr s | None => PyNone end.

Definition opt_dict (o : option Dict) : PyVal :=
  match o with Some d => PyDict d | None => PyNone end.

Definition opt_int (o : option Z) : PyVal :=
  match o with Some n => PyInt n | None => PyNone end.

(** [model.dict()]. *)
Definition ProjectInfo_dict (p : ProjectInfo) : PyVal :=
  PyDict [("id", PyInt (p_id p)); ("name", PyStr (p_name p));
          ("identifier", PyStr (p_identifier p));
          ("description", opt_dict (p_description p));
          ("created_at", opt_str (p_created_at p));
          ("updated_at", opt_str (p_updated_at p))].

Definition WorkPackageInfo_dict (wp : WorkPackageInfo) : PyVal :=
  PyDict [("id", opt_int (wp_id wp)); ("subject", PyStr (wp_subject wp));
          ("description", opt_dict (wp_description wp));
          ("status", opt_str (wp_status wp));
          ("priority", opt_str (wp_priority wp));
          ("assignee", opt_str (wp_assignee wp));
          ("due_date", opt_str (wp_due_date wp));
          ("created_at", opt_str (wp_created_at wp));
          ("updated_at", opt_str (wp_updated_at wp))].

(** ** Extraction from backend responses *)

Definition _extract_project_data (project_result : PyVal) : Outcome ProjectInfo :=
  if has_dunder_dict project_result then
    ProjectInfo_new
      [("id", getattr project_result "id" (PyInt 0));
       ("name", getattr project_result "name" (PyStr "Unknown Project"));
       ("identifier", getattr project_result "identifier" (PyStr ""));
       ("description", getattr project_result "description" (PyDict []));
       ("created_at", getattr project_result "created_at" (PyStr ""));
       ("updated_at", getattr project_result "updated_at" (PyStr ""))]
  else if is_dict project_result then
    match project_result with
    | PyDict d => ProjectInfo_new d
    | _ => Raise (TypeError "argument after ** must be a mapping")
    end
  else
    i <~ get_method project_result "id" (PyInt 0) ;;
    n <~ get_method project_result "name" (PyStr "Unknown Project") ;;
    ident <~ get_method project_result "identifier" (PyStr "") ;;
    d <~ get_method project_result "description" (PyDict []) ;;
    c <~ get_method project_result "created_at" (PyStr "") ;;
    u <~ get_method project_result "updated_at" (PyStr "") ;;
    ProjectInfo_new
      [("id", i); ("name", n); ("identifier", ident);
       ("description", d); ("created_at", c); ("updated_at", u)].

(** The body of the conversion loop for one element: an object is read
    attribute by attribute, a dict is passed to the constructor, anything
    else is skipped. *)
Definition convert_work_package (wp : PyVal) : Outcome (list WorkPackageInfo) :=
  if has_dunder_dict wp then
    info <~ WorkPackageInfo_new
      [("id", getattr wp "id" PyNone);
       ("subject", getattr wp "subject" (PyStr ""));
       ("description", getattr wp "description" (PyDict []));
       ("status", getattr (getattr wp "status" PyNone) "name" PyNone);
       ("priority", getattr (getattr wp "priority" PyNone) "name" PyNone);
       ("assignee", getattr (getattr wp "assignee" PyNone) "name" PyNone);
       ("due_date", getattr wp "due_date" PyNone);
       ("created_at", getattr wp "created_at" PyNone);
       ("updated_at", getattr wp "updated_at" PyNone)] ;;
    Return [info]
  else
    match wp with
    | PyDict d => info <~ WorkPackageInfo_new d ;; Return [info]
    | _ => Return []
    end.

Fixpoint convert_work_packages (items : list PyVal) : Outcome (list WorkPackageInfo) :=
  match items with
  | [] => Return []
  | wp :: rest =>
      first <~ convert_work_package wp ;;
      more <~ convert_work_packages rest ;;
      Return (first ++ more)%list
  end.

Definition _extract_work_packages_data (work_packages_result : PyVal)
  : Outcome (list WorkPackageInfo) :=
  work_packages_list <~
    (if (hasattr work_packages_result "_embedded"
         && hasattr (getattr work_packages_result "_embedded" PyNone) "elements")%bool
     then Return (getattr (getattr work_packages_result "_embedded" PyNone) "elements" PyNone)
     else if hasattr work_packages_result "elements"
     then Return (getattr work_packages_result "elements" PyNone)
     else if is_dict work_packages_result
     then embedded <~ get_method work_packages_result "_embedded" (PyDict []) ;;
          get_method embedded "elements" (PyList [])
     else Return (if is_list work_packages_result then work_packages_result
                  else PyList [])) ;;
  items <~ iterate work_packages_list ;;
  convert_work_packages items.

(** ** The client *)

(** An [OpenProjectClient] instance; [__init__] reads the API key from the
    environment and refuses an empty one with the [AuthenticationError]
    of its own module. *)
Record OpenProjectClient := mkClient { client_api_key : string }.

Definition OpenProjectClient_init : M OpenProjectClient :=
  fun w =>
    if String.eqb (api_key w) "" then
      (Raise (ClientAuthenticationError "OpenProject API key not configured. Please set OPENPROJECT_API_KEY environment variable."), w)
    else (Return (mkClient (api_key w)), w).

Definition create_openproject_client : M OpenProjectClient := OpenProjectClient_init.

(** The classes named in both [@backoff.on_exception] decorators. *)
Definition retry_on : list ExnClass :=
  [CRequestError; COpenProjectConnectionError; CApiException].

Definition wait_gen : nat -> Z := Backoff.expo 1 1 30.

Definition max_tries : nat := 3.

(** The [except ApiException as e] clause of [get_project] and of
    [get_work_packages].  Each branch builds an [OpenProjectError] from
    [status_code] and [message] alone before raising. *)
Definition on_api_exception {A : Type} (project_id : PyVal) (status : Z) (text : string)
  : M A :=
  if (status =? 401)%Z then
    err <- lift (OpenProjectError_new (Some status) None
                   (Some "Invalid API credentials") None) ;;
    raise (OpenProjectAuthenticationError "Authentication failed" (Some err))
  else if (status =? 404)%Z then
    err <- lift (OpenProjectError_new (Some status) None
                   (Some ("Project " ++ py_str project_id ++ " not found")) None) ;;
    raise (OpenProjectClientError ("Project " ++ py_str project_id ++ " not found") (Some err))
  else
    err <- lift (OpenProjectError_new (Some status) None (Some text) None) ;;
    raise (OpenProjectClientError ("API error: " ++ text) (Some err)).

(** The two [except] clauses that close the [try] block of
    [get_project] and of [get_work_packages]; [failed] is the start of
    the message of the second. *)
Definition except_clauses {A : Type} (failed : string) (project_id : PyVal) (e : Exn)
  : M A :=
  match e with
  | ApiException status text => on_api_exception project_id status text
  | _ =>
      raise (OpenProjectClientError
               (failed ++ py_str project_id ++ ": " ++ exn_str e) None)
  end.

(** The function under the decorator: one attempt. *)
Definition get_project_attempt (project_id : PyVal) : M ProjectInfo :=
  try_except
    (project_result <- send (ReqGetProject project_id) ;;
     project_data <- lift (_extract_project_data project_result) ;;
     ret project_data)
    (except_clauses "Failed to get project " project_id).

(** [OpenProjectClient.get_project], as callers see it: the attempt under
    [backoff.on_exception(backoff.expo, (...), max_tries=3, base=1,
    max_value=30)]. *)
Definition get_project (project_id : PyVal) : M ProjectInfo :=
  log (EvCall (OpGetProject project_id)) ;;;
  Backoff.on_exception wait_gen retry_on max_tries (get_project_attempt project_id).

Definition default_filters : PyVal :=
  PyList [PyDict [("status_id",
                   PyDict [("operator", PyStr "!"); ("values", PyList [PyStr ""])])]].

Definition get_work_packages_attempt (project_id filters : PyVal)
  : M (list WorkPackageInfo) :=
  try_except
    (let filters := match filters with PyNone => default_filters | _ => filters end in
     work_packages_result <- send (ReqGetWorkPackages filters project_id) ;;
     work_packages_data <- lift (_extract_work_packages_data work_packages_result) ;;
     ret work_packages_data)
    (except_clauses "Failed to get work packages for project " project_id).

Definition get_work_packages (project_id filters : PyVal) : M (list WorkPackageInfo) :=
  log (EvCall (OpGetWorkPackages project_id filters)) ;;;
  Backoff.on_exception wait_gen retry_on max_tries
    (get_work_packages_attempt project_id filters).

(** [asyncio.gather(a, b, return_exceptions=True)]: both awaitables are
    started, in argument order, and both are run to their end whatever
    the other does; an exception of either is handed back as its result.
    Here the first runs to its end before the second starts, which is one
    of the schedules the event loop may choose. *)
Definition gather {A B : Type} (a : M A) (b : M B) : M (Outcome A * Outcome B) :=
  fun w =>
    let (ra, w1) := a w in
    let (rb, w2) := b w1 in
    (Return (ra, rb), w2).

(** [OpenProjectClient.get_weekly_report]; its [except Exception] clause
    logs and re-raises. *)
Definition get_weekly_report (project_id week_arg : PyVal) : M WeeklyReportData :=
  log (EvCall (OpGetWeeklyReport project_id week_arg)) ;;;
  try_except
    (results <- gather (get_project project_id) (get_work_packages project_id PyNone) ;;
     match results with
     | (Raise e, _) => raise e
     | (Return _, Raise e) => raise e
     | (Return p, Return wps) =>
         report <- lift (WeeklyReportData_new p wps
                           (py_or week_arg (PyStr "current"))
                           ("Found " ++ str_of_nat (List.length wps) ++ " work packages")) ;;
         ret report
     end)
    (fun e => raise e).

End Client.

(* ================================================================== *)
(** * [mcp_core.py] *)
(* ================================================================== *)

Module Core.
Import Py Effects Client.
#[local] Open Scope eff_scope.

(** [ServerConfig], the dataclass of [config.py]. *)
Record ServerConfig := mkServerConfig {
  openproject_base_url : string;
  openproject_api_key : string;
  encryption_key : string;
  debug : bool
}.

(** The state of an [MCPCore] instance. *)
Record MCPCore := mkMCPCore {
  config : ServerConfig;
  client : option OpenProjectClient
}.

(** [mcp.types.Tool]. *)
Record Tool := mkTool {
  tool_name : string;
  tool_description : string;
  inputSchema : PyVal
}.

(** [CallToolResult] with its single [TextContent]: [payload] is the
    object whose JSON text the content carries. *)
Record CallToolResult := mkCallToolResult { payload : PyVal }.

Definition _list_tools (self : MCPCore) : M (list Tool) :=
  let tools :=
    [ mkTool "get_project" "Get project information by ID"
        (PyDict
           [("type", PyStr "object");
            ("properties",
             PyDict [("project_id",
                      PyDict [("type", PyStr "integer");
                              ("description", PyStr "Project ID to retrieve")])]);
            ("required", PyList [PyStr "project_id"])]);
      mkTool "get_work_packages" "Get work packages for a project"
        (PyDict
           [("type", PyStr "object");
            ("properties",
             PyDict [("project_id",
                      PyDict [("type", PyStr "integer");
                              ("description", PyStr "Project ID to get work packages for")]);
                     ("filters",
                      PyDict [("type", PyStr "array");
                              ("description", PyStr "Optional filters to apply");
                              ("items", PyDict [("type", PyStr "object")])])]);
            ("required", PyList [PyStr "project_id"])]);
      mkTool "get_weekly_report" "Get weekly report data for a project"
        (PyDict
           [("type", PyStr "object");
            ("properties",
             PyDict [("project_id",
                      PyDict [("type", PyStr "integer");
                              ("description", PyStr "Project ID to generate weekly report for")]);
                     ("week",
                      PyDict [("type", PyStr "string");
                              ("description", PyStr "Week identifier (e.g., '2024-W42')")])]);
            ("required", PyList [PyStr "project_id"])]) ] in
  ret tools.

Definition _create_client (self : MCPCore) : M OpenProjectClient :=
  create_openproject_client.

Definition _handle_get_project (self : MCPCore) (arguments : Dict) : M CallToolResult :=
  let project_id := dict_get arguments "project_id" in
  if negb (truthy project_id) then raise (ValueError "project_id is required")
  else
    match client self with
    | None => raise (AttributeError "'NoneType' object has no attribute 'get_project'")
    | Some _ =>
        project <- get_project project_id ;;
        ret (mkCallToolResult
               (PyDict [("id", PyInt (p_id project));
                        ("name", PyStr (p_name project));
                        ("identifier", PyStr (p_identifier project));
                        ("description", opt_dict (p_description project));
                        ("created_at", opt_str (p_created_at project));
                        ("updated_at", opt_str (p_updated_at project))]))
    end.

Definition _handle_get_work_packages (self : MCPCore) (arguments : Dict)
  : M CallToolResult :=
  let project_id := dict_get arguments "project_id" in
  let filters := dict_get arguments "filters" in
  if negb (truthy project_id) then raise (ValueError "project_id is required")
  else
    match client self with
    | None => raise (AttributeError "'NoneType' object has no attribute 'get_work_packages'")
    | Some _ =>
        work_packages <- get_work_packages project_id filters ;;
        ret (mkCallToolResult
               (PyDict
                  [("project_id", project_id);
                   ("work_packages",
                    PyList (map (fun wp =>
                                   PyDict [("id", opt_int (wp_id wp));
                                           ("subject", PyStr (wp_subject wp));
                                           ("status", opt_str (wp_status wp));
                                           ("priority", opt_str (wp_priority wp));
                                           ("assignee", opt_str (wp_assignee wp));
                                           ("due_date", opt_str (wp_due_date wp));
                                           ("created_at", opt_str (wp_created_at wp));
                                           ("updated_at", opt_str (wp_updated_at wp))])
                                work_packages));
                   ("total_count", PyInt (Z.of_nat (List.length work_packages)))]))
    end.

Definition _handle_get_weekly_report (self : MCPCore) (arguments : Dict)
  : M CallToolResult :=
  let project_id := dict_get arguments "project_id" in
  let week := dict_get arguments "week" in
  if negb (truthy project_id) then raise (ValueError "project_id is required")
  else
    match client self with
    | None => raise (AttributeError "'NoneType' object has no attribute 'get_weekly_report'")
    | Some _ =>
        report <- get_weekly_report project_id week ;;
        ret (mkCallToolResult
               (PyDict
                  [("project",
                    PyDict [("id", PyInt (p_id (project report)));
                            ("name", PyStr (p_name (project report)));
                            ("identifier", PyStr (p_identifier (project report)))]);
                   ("week", PyStr (Client.week report));
                   ("work_packages",
                    PyList (map (fun wp =>
                                   PyDict [("id", opt_int (wp_id wp));
                                           ("subject", PyStr (wp_subject wp));
                                           ("status", opt_str (wp_status wp));
                                           ("priority", opt_str (wp_priority wp));
                                           ("assignee", opt_str (wp_assignee wp));
                                           ("due_date", opt_str (wp_due_date wp))])
                                (work_packages report)));
                   ("summary", opt_str (summary report));
                   ("total_packages",
                    PyInt (Z.of_nat (List.length (work_packages report))))]))
    end.

Definition error_result (prefix : string) (e : Exn) : CallToolResult :=
  mkCallToolResult (PyDict [("error", PyStr (prefix ++ exn_str e))]).

(** The three [except] clauses of [_call_tool], in their order.  The
    classes named in the second are [OpenProjectClientError] and the
    [AuthenticationError] and [SecurityError] that [mcp_core.py] imports
    from [security.py]. *)
Definition on_tool_exception (e : Exn) : CallToolResult :=
  if isinstance_any e [CValueError; CKeyError] then
    error_result "Invalid arguments: " e
  else if isinstance_any e [COpenProjectClientError; CAuthenticationError; CSecurityError] then
    error_result "OpenProject API error: " e
  else
    error_result "Unexpected error: " e.

(** The first statement of the [try] block: the client is created on
    first use and kept on the instance. *)
Definition ensure_client (self : MCPCore) : M MCPCore :=
  match client self with
  | None => c <- _create_client self ;; ret (mkMCPCore (config self) (Some c))
  | Some _ => ret self
  end.

Definition dispatch_tool (self : MCPCore) (name : string) (arguments : Dict)
  : M CallToolResult :=
  if String.eqb name "get_project" then _handle_get_project self arguments
  else if String.eqb name "get_work_packages" then _handle_get_work_packages self arguments
  else if String.eqb name "get_weekly_report" then _handle_get_weekly_report self arguments
  else raise (ValueError ("Unknown tool: " ++ name)).

(** [_call_tool] never raises: every exception of its body becomes an
    error result.  The instance is returned with the result so that the
    client created on the way stays. *)
Definition _call_tool (self : MCPCore) (name : string) (arguments : Dict)
  : World -> (CallToolResult * MCPCore) * World :=
  fun w =>
    match ensure_client self w with
    | (Raise e, w1) => ((on_tool_exception e, self), w1)
    | (Return self', w1) =>
        match dispatch_tool self' name arguments w1 with
        | (Return r, w2) => ((r, self'), w2)
        | (Raise e, w2) => ((on_tool_exception e, self'), w2)
        end
    end.

End Core.

(* ================================================================== *)
(** * [fastapi_mcp_server.py]: tool handlers and the stdio loop *)
(* ================================================================== *)

Module Stdio.
Import Py Effects Client.
#[local] Open Scope eff_scope.

(** [MCPResponse]. *)
Record MCPResponse := mkMCPResponse {
  data : option Dict;
  error : option string;
  metadata : option Dict
}.

(** [response.dict(exclude_none=True)]: the fields that are not [None]. *)
Definition MCPResponse_dict (r : MCPResponse) : PyVal :=
  PyDict
    ((match data r with Some d => [("data", PyDict d)] | None => [] end)
     ++ (match error r with Some e => [("error", PyStr e)] | None => [] end)
     ++ (match metadata r with Some m => [("metadata", PyDict m)] | None => [] end))%list.

(** [client.method(...)] on the client of the server state, which is
    [None] until the state is initialised. *)
Definition with_client {A : Type} (client : option OpenProjectClient) (method : string)
    (call : M A) : M A :=
  match client with
  | Some _ => call
  | None => raise (AttributeError ("'NoneType' object has no attribute '" ++ method ++ "'"))
  end.

Definition handle_fetch_weekly_report (params : PyVal) (client : option OpenProjectClient)
  : M MCPResponse :=
  project_id <- lift (get_method params "project_id" PyNone) ;;
  week <- lift (get_method params "week" PyNone) ;;
  if negb (truthy project_id) then raise (ValidationError "project_id is required")
  else
    report_data <- with_client client "get_weekly_report"
                     (get_weekly_report project_id week) ;;
    let response_data :=
      [("project", ProjectInfo_dict (project report_data));
       ("work_packages", PyList (map WorkPackageInfo_dict (work_packages report_data)));
       ("week", PyStr (Client.week report_data));
       ("summary", opt_str (summary report_data));
       ("total_packages", PyInt (Z.of_nat (List.length (work_packages report_data))))] in
    ret (mkMCPResponse (Some response_data) None None).

Definition handle_get_project_data (params : PyVal) (client : option OpenProjectClient)
  : M MCPResponse :=
  project_id <- lift (get_method params "project_id" PyNone) ;;
  if negb (truthy project_id) then raise (ValidationError "project_id is required")
  else
    project_data <- with_client client "get_project" (get_project project_id) ;;
    work_packages <- with_client client "get_work_packages"
                       (get_work_packages project_id PyNone) ;;
    let response_data :=
      [("project", ProjectInfo_dict project_data);
       ("work_packages", PyList (map WorkPackageInfo_dict work_packages));
       ("total_packages", PyInt (Z.of_nat (List.length work_packages)))] in
    ret (mkMCPResponse (Some response_data) None None).

(** ** JSON-RPC envelopes *)

Definition rpc_result (id result : PyVal) : PyVal :=
  PyDict [("jsonrpc", PyStr "2.0"); ("id", id); ("result", result)].

Definition rpc_error (id : PyVal) (code : Z) (msg : string) : PyVal :=
  PyDict [("jsonrpc", PyStr "2.0"); ("id", id);
          ("error", PyDict [("code", PyInt code); ("message", PyStr msg)])].

Definition week_pattern : string := "^202[0-9]-W([1-9]|[1-4][0-9]|5[0-3])$".

Definition initialize_result : PyVal :=
  PyDict
    [("protocolVersion", PyStr "2024-11-05");
     ("capabilities",
      PyDict [("tools", PyDict [("listChanged", PyBool true)]);
              ("resources", PyDict [("subscribe", PyBool false);
                                    ("listChanged", PyBool false)])]);
     ("serverInfo", PyDict [("name", PyStr "mcp-openproject-server");
                            ("version", PyStr "1.0.0")])].

Definition tools_list_result : PyVal :=
  PyDict
    [("tools",
      PyList
        [PyDict
           [("name", PyStr "fetch_weekly_report");
            ("description",
             PyStr "Fetch weekly report data for a specific project from OpenProject");
            ("inputSchema",
             PyDict
               [("type", PyStr "object");
                ("properties",
                 PyDict
                   [("project_id",
                     PyDict [("type", PyStr "integer");
                             ("description", PyStr "The ID of the project to fetch data for");
                             ("minimum", PyInt 1)]);
                    ("week",
                     PyDict [("type", PyStr "string");
                             ("description",
                              PyStr "Optional week identifier (e.g., '2025-W41')");
                             ("pattern", PyStr week_pattern)])]);
                ("required", PyList [PyStr "project_id"])])];
         PyDict
           [("name", PyStr "get_project_data");
            ("description", PyStr "Get project data as a resource");
            ("inputSchema",
             PyDict
               [("type", PyStr "object");
                ("properties",
                 PyDict
                   [("project_id",
                     PyDict [("type", PyStr "integer");
                             ("description", PyStr "The ID of the project");
                             ("minimum", PyInt 1)])]);
                ("required", PyList [PyStr "project_id"])])]])].

Definition resources_list_result : PyVal :=
  PyDict
    [("resources",
      PyList
        [PyDict [("uri", PyStr "openproject://projects/{project_id}");
                 ("name", PyStr "Project Data");
                 ("description", PyStr "OpenProject data for a specific project");
                 ("mimeType", PyStr "application/json")]])].

Definition notification_methods : list string :=
  ["initialized"; "notifications/tools/list_changed";
   "notifications/resources/list_changed"].

(** The chain of [if method == ...] that builds [response]. *)
Definition build_response (client : option OpenProjectClient)
    (method params request_id : PyVal) : M PyVal :=
  if eq_str method "initialize" then
    ret (rpc_result request_id initialize_result)
  else if eq_str method "tools/list" then
    ret (rpc_result request_id tools_list_result)
  else if eq_str method "tools/call" then
    tool_name <- lift (get_method params "name" PyNone) ;;
    tool_params <- lift (get_method params "arguments" (PyDict [])) ;;
    tool_result <-
      (if eq_str tool_name "fetch_weekly_report" then
         r <- handle_fetch_weekly_report tool_params client ;;
         ret (MCPResponse_dict r)
       else if eq_str tool_name "get_project_data" then
         r <- handle_get_project_data tool_params client ;;
         ret (MCPResponse_dict r)
       else
         ret (PyDict [("error", PyStr ("Unknown tool: " ++ py_str tool_name))])) ;;
    ret (rpc_result request_id tool_result)
  else if eq_str method "resources/list" then
    ret (rpc_result request_id resources_list_result)
  else if existsb (eq_str method) notification_methods then
    ret (rpc_result request_id PyNone)
  else
    ret (rpc_error request_id (-32601) ("Method not found: " ++ py_str method)).

(** [print(json.dumps(x))]: the value reaches stdout unless [json.dumps]
    refuses it. *)
Definition print_json (x : PyVal) : Outcome PyVal :=
  if serializable x then Return x
  else Raise (TypeError "Object is not JSON serializable").

(** What one pass through the inner [try] statement leaves behind: a
    response on stdout, or an exception raised while an [except] clause
    was printing, which ends the loop through the outer handler. *)
Inductive LineResult : Type :=
| Wrote (response : PyVal)
| Aborted (e : Exn).

Section Loop.

(** [json.loads]. *)
Variable loads : string -> Outcome PyVal.

(** The loop keeps its local variable [request_id] from one line to the
    next; [None] stands for the name not being bound yet (as tested by
    ['request_id' in locals()]). *)
Definition Locals := option PyVal.

(** The [try] block for one stripped, non-empty line: what it prints or
    raises, and the binding of [request_id] when it is left. *)
Definition try_block (client : option OpenProjectClient) (request_id : Locals)
    (line : string) : World -> (Outcome PyVal * Locals) * World :=
  fun w =>
    match loads line with
    | Raise e => ((Raise e, request_id), w)
    | Return request_data =>
        match request_data with
        | PyDict d =>
            if negb (eq_str (dict_get d "jsonrpc") "2.0") then
              ((print_json (rpc_error (dict_get_or d "id" PyNone) (-32600)
                              "Invalid Request: Must be JSON-RPC 2.0"),
                request_id), w)
            else
              let method := dict_get d "method" in
              let params := dict_get_or d "params" (PyDict []) in
              let request_id' := dict_get d "id" in
              match build_response client method params request_id' w with
              | (Return response, w') => ((print_json response, Some request_id'), w')
              | (Raise e, w') => ((Raise e, Some request_id'), w')
              end
        | _ =>
            (* not a dict: the error response asks it for [.get("id", None)] *)
            ((Raise (AttributeError "object has no attribute 'get'"), request_id), w)
        end
    end.

(** The two [except] clauses of the inner [try]. *)
Definition on_line_exception (request_id : Locals) (e : Exn) : PyVal :=
  if isinstance e CJSONDecodeError then
    rpc_error PyNone (-32700) ("Parse error: " ++ exn_str e)
  else
    rpc_error (match request_id with Some i => i | None => PyNone end) (-32603)
      ("Internal error: " ++ exn_str e).

Definition handle_line (client : option OpenProjectClient) (request_id : Locals)
    (line : string) : World -> (LineResult * Locals) * World :=
  fun w =>
    match try_block client request_id line w with
    | ((Return written, request_id'), w') => ((Wrote written, request_id'), w')
    | ((Raise e, request_id'), w') =>
        match print_json (on_line_exception request_id' e) with
        | Return written => ((Wrote written, request_id'), w')
        | Raise e' => ((Aborted e', request_id'), w')
        end
    end.

(** The [while True] loop over the strings [readline] returns.  The end
    of the list, like an empty string, is the end of input; a line that
    is empty once stripped is skipped.  The result is what was written to
    stdout, oldest first. *)
Fixpoint read_loop (client : option OpenProjectClient) (request_id : Locals)
    (lines : list string) (w : World) : list PyVal * World :=
  match lines with
  | [] => ([], w)
  | line :: rest =>
      if String.eqb line "" then ([], w)
      else
        let line := Json.strip line in
        if String.eqb line "" then read_loop client request_id rest w
        else
          match handle_line client request_id line w with
          | ((Wrote response, request_id'), w') =>
              let (more, w'') := read_loop client request_id' rest w' in
              (response :: more, w'')
          | ((Aborted _, _), w') => ([], w')
          end
  end.

Definition handle_stdio_mode (client : option OpenProjectClient) (lines : list string)
    (w : World) : list PyVal * World :=
  read_loop client None lines w.

End Loop.

End Stdio.

(* ================================================================== *)
(** * [HTTPClientManager]: the semaphore and the tasks of the event loop *)
(* ================================================================== *)

Module Pool.

(** A coroutine of the client runs without interruption from one
    [await] that suspends to the next; the event loop picks which
    suspended task goes on.  A task here is one backend operation. *)
Inductive Stage : Type :=
| Pending      (* created, nothing awaited yet *)
| InFlight     (* the backend request is out, the response awaited *)
| Finished.

(** The two ways to a request that the source contains:
    [Direct] is the body of [get_project] and [get_work_packages], which
    await the API object's method at once; [Guarded] is a body wrapped in
    [async with http_manager.request_context()], which holds the
    semaphore while the request is out. *)
Inductive Path : Type :=
| Direct
| Guarded.

Record Task := mkTask { path : Path; stage : Stage }.

(** [_semaphore] is the value of the [asyncio.Semaphore] created in
    [HTTPClientManager.__init__] from [MAX_CONNECTIONS]. *)
Record Loop := mkLoop {
  _semaphore : nat;
  tasks : list Task
}.

Definition HTTPClientManager_init (max_connections : nat) (paths : list Path) : Loop :=
  mkLoop max_connections (map (fun p => mkTask p Pending) paths).

Definition is_in_flight (t : Task) : bool :=
  match stage t with InFlight => true | _ => false end.

Definition in_flight (l : Loop) : nat := List.length (filter is_in_flight (tasks l)).

Fixpoint update {A : Type} (i : nat) (x : A) (xs : list A) : list A :=
  match xs, i with
  | [], _ => []
  | _ :: rest, O => x :: rest
  | y :: rest, S j => y :: update j x rest
  end.

(** Task [i] runs up to its next suspension.  [None]: the task cannot
    go on now (it is finished, it does not exist, or it waits for the
    semaphore, whose value is 0). *)
Definition step (i : nat) (l : Loop) : option Loop :=
  match nth_error (tasks l) i with
  | None => None
  | Some t =>
      match path t, stage t with
      | Direct, Pending =>
          Some (mkLoop (_semaphore l) (update i (mkTask Direct InFlight) (tasks l)))
      | Direct, InFlight =>
          Some (mkLoop (_semaphore l) (update i (mkTask Direct Finished) (tasks l)))
      | Guarded, Pending =>
          match _semaphore l with
          | O => None
          | S v => Some (mkLoop v (update i (mkTask Guarded InFlight) (tasks l)))
          end
      | Guarded, InFlight =>
          Some (mkLoop (S (_semaphore l)) (update i (mkTask Guarded Finished) (tasks l)))
      | _, Finished => None
      end
  end.

(** A schedule names the task to resume at each turn; a turn whose task
    cannot go on leaves the loop as it is. *)
Fixpoint run (schedule : list nat) (l : Loop) : Loop :=
  match schedule with
  | [] => l
  | i :: rest => run rest (match step i l with Some l' => l' | None => l end)
  end.

End Pool.

(* ================================================================== *)
(** * Vocabulary of the statements, and concrete backends *)
(* ================================================================== *)

Module Spec.
Import Py Effects.

(** The value a backend response carries under a name: an attribute of
    an object, an entry of a dict. *)
Definition response_field (r : PyVal) (k : string) : option PyVal :=
  match r with
  | PyObj attrs => lookup k attrs
  | PyDict d => lookup k d
  | _ => None
  end.

(** A tool descriptor declares [param] as a required parameter of JSON
    type [ty]. *)
Definition declares_required (schema : PyVal) (param ty : string) : bool :=
  match schema with
  | PyDict s =>
      match lookup "properties" s, lookup "required" s with
      | Some (PyDict props), Some (PyList req) =>
          match lookup param props with
          | Some (PyDict decl) =>
              (eq_str (dict_get decl "type") ty
               && existsb (fun r => eq_str r param) req)%bool
          | _ => false
          end
      | _, _ => false
      end
  | _ => false
  end.

(** The [code] and [id] members of a JSON-RPC error response. *)
Definition error_code_of (response : PyVal) : option PyVal :=
  match response with
  | PyDict d =>
      match lookup "error" d with
      | Some (PyDict e) => lookup "code" e
      | _ => None
      end
  | _ => None
  end.

Definition id_of (response : PyVal) : option PyVal :=
  match response with
  | PyDict d => lookup "id" d
  | _ => None
  end.

(** What leaves the [try] statement of a client operation when it
    fails. *)
Definition surfaced (e : Exn) : Prop :=
  (exists m, e = TypeError m) \/ (exists m, e = OpenProjectClientError m None).

(** The exception of a model constructor that refuses its input. *)
Definition validation_error (e : Exn) : Prop := exists m, e = PydanticValidationError m.

(** A line the read loop does not skip. *)
Definition non_blank (line : string) : bool := negb (String.eqb (Json.strip line) "").

(** The binding of [request_id] can be printed. *)
Definition printable (request_id : option PyVal) : Prop :=
  match request_id with
  | Some i => serializable i = true
  | None => True
  end.

(** A task that holds a slot of the semaphore: it went through
    [request_context] and its request is out. *)
Definition holding (t : Pool.Task) : bool :=
  match Pool.path t, Pool.stage t with
  | Pool.Guarded, Pool.InFlight => true
  | _, _ => false
  end.

Definition held (l : Pool.Loop) : nat := List.length (filter holding (Pool.tasks l)).

End Spec.

Module Scenario.
Import Py Effects.

(** The line feed that ends a line read from stdin. *)
Definition nl : string := String (ascii_of_nat 10) EmptyString.

(** JSON text written with apostrophes where the wire has double
    quotes. *)
Fixpoint json_text (s : string) : string :=
  match s with
  | EmptyString => EmptyString
  | String c rest =>
      String (if Ascii.eqb c "'" then Json.quote else c) (json_text rest)
  end.

(** A request with an id, and the notification [initialized], which has
    none. *)
Definition tools_list_line : string :=
  json_text "{'jsonrpc':'2.0','id':1,'method':'tools/list'}" ++ nl.

Definition initialized_line : string :=
  json_text "{'jsonrpc':'2.0','method':'initialized'}" ++ nl.

(** A line that holds a no-break space (U+00A0) and nothing else, and
    the request of [tools_list_line] behind an em space (U+2003) and a
    no-break space, with an ideographic space (U+3000) after it. *)
Definition no_break_space_line : string := Json.encode [160%N] ++ nl.

Definition indented_tools_list_line : string :=
  Json.encode [8195%N; 160%N]
  ++ json_text "{'jsonrpc':'2.0','id':1,'method':'tools/list'}"
  ++ Json.encode [12288%N] ++ nl.

Definition demo_project : PyVal :=
  PyObj [("id", PyInt 42); ("name", PyStr "Demo"); ("identifier", PyStr "demo")].

Definition two_packages : PyVal :=
  PyObj [("_embedded",
          PyObj [("elements",
                  PyList [PyObj [("id", PyInt 1); ("subject", PyStr "Design")];
                          PyObj [("id", PyInt 2); ("subject", PyStr "Build")]])])].

(** A backend that serves the demo project and its two work packages. *)
Definition healthy : Backend :=
  fun _ rq =>
    match rq with
    | ReqGetProject _ => Return demo_project
    | ReqGetWorkPackages _ _ => Return two_packages
    end.

(** A backend whose first answer is a connection failure and which is
    healthy from then on. *)
Definition flaky : Backend :=
  fun history rq =>
    match requests history with
    | O => Raise (RequestError "connection refused")
    | S _ => healthy history rq
    end.

(** A backend that never accepts a connection. *)
Definition unreachable : Backend :=
  fun _ _ => Raise (RequestError "connection refused").

(** A backend that answers every request with the given HTTP status. *)
Definition refusing (status : Z) : Backend :=
  fun _ _ => Raise (ApiException status "HTTP error").

(** A backend that serves projects but fails on work packages. *)
Definition no_work_packages : Backend :=
  fun _ rq =>
    match rq with
    | ReqGetProject _ => Return demo_project
    | ReqGetWorkPackages _ _ => Raise (RequestError "connection reset")
    end.

(** A backend whose project object carries neither [id] nor [name]. *)
Definition anonymous_project : Backend :=
  fun _ _ => Return (PyObj [("identifier", PyStr "demo")]).

(** A backend whose project is a dict without [name]. *)
Definition nameless_dict : Backend :=
  fun _ _ => Return (PyDict [("id", PyInt 42); ("identifier", PyStr "demo")]).

Definition world (b : Backend) : World := mkWorld "secret-key" b [].

Definition core : Core.MCPCore :=
  Core.mkMCPCore (Core.mkServerConfig "http://localhost:8080" "secret-key"
                    "0123456789abcdef" false)
                 (Some (Client.mkClient "secret-key")).

End Scenario.

(* ================================================================== *)
(** * Further vocabulary *)
(* ================================================================== *)

Module Vocabulary.
Import Py.

(** An element of a work-package list that the conversion loop turns
    into a [WorkPackageInfo]: an object or a dict. *)
Definition convertible (x : PyVal) : bool := (has_dunder_dict x || is_dict x)%bool.

(** The display name a nested reference resolves to: the [name] of an
    object, nothing for any other value. *)
Definition display_name (attrs : Dict) (field : string) : PyVal :=
  getattr (getattr (PyObj attrs) field PyNone) "name" PyNone.

End Vocabulary.

(* ================================================================== *)
(** * [mcp_core.py]: shutdown and health *)
(* ================================================================== *)

Module CoreLifecycle.
Import Py Effects Client Core.
#[local] Open Scope eff_scope.

(** The methods the class [OpenProjectClient] defines. *)
Definition OpenProjectClient_methods : list string :=
  ["__init__"; "_get_api_client"; "get_projects_api"; "get_work_packages_api";
   "get_project"; "get_work_packages"; "get_weekly_report";
   "_extract_project_data"; "_extract_work_packages_data";
   "close"; "__aenter__"; "__aexit__"].

(** Looking a method up on a client instance. *)
Definition client_method (name : string) : Outcome unit :=
  if existsb (String.eqb name) OpenProjectClient_methods then Return tt
  else Raise (AttributeError
                ("'OpenProjectClient' object has no attribute '" ++ name ++ "'")).

(** [MCPCore.cleanup]: with a client at hand it awaits
    [self.client.cleanup()] and then forgets the client. *)
Definition cleanup (self : MCPCore) : M MCPCore :=
  match client self with
  | Some _ =>
      _ <- lift (client_method "cleanup") ;;
      ret (mkMCPCore (config self) None)
  | None => ret self
  end.

End CoreLifecycle.

(* ================================================================== *)
(** * Further vocabulary for the stdio loop *)
(* ================================================================== *)

Module StdioVocabulary.
Import Py Effects.

(** The [id] an internal-error response carries: the value [request_id]
    is bound to, or null when the name is not bound yet. *)
Definition bound_id (request_id : option PyVal) : PyVal :=
  match request_id with Some i => i | None => PyNone end.

(** The methods the loop answers with a result. *)
Definition known_methods : list string :=
  ["initialize"; "tools/list"; "tools/call"; "resources/list";
   "initialized"; "notifications/tools/list_changed";
   "notifications/resources/list_changed"].

(** The [result] member of a JSON-RPC response. *)
Definition result_of (response : PyVal) : option PyVal :=
  match response with
  | PyDict d => lookup "result" d
  | _ => None
  end.

End StdioVocabulary.

Module StdioScenario.
Import Py Effects Scenario.

(** A request with id 7, an array, and a request under version 1.0. *)
Definition request_seven : string :=
  json_text "{'jsonrpc':'2.0','id':7,'method':'tools/list'}" ++ nl.

Definition array_line : string := "[1]" ++ nl.

Definition old_version_line : string :=
  json_text "{'jsonrpc':'1.0','id':3,'method':'tools/list'}" ++ nl.

Definition unknown_method_line : string :=
  json_text "{'jsonrpc':'2.0','id':4,'method':'prompts/list'}" ++ nl.

(** A call of [get_project_data] without [project_id], and a call of a
    tool that does not exist. *)
Definition call_without_id : string :=
  json_text "{'jsonrpc':'2.0','id':5,'method':'tools/call','params':{'name':'get_project_data','arguments':{}}}"
  ++ nl.

Definition call_unknown_tool : string :=
  json_text "{'jsonrpc':'2.0','id':6,'method':'tools/call','params':{'name':'drop_all','arguments':{}}}"
  ++ nl.

Definition call_project_data : string :=
  json_text "{'jsonrpc':'2.0','id':8,'method':'tools/call','params':{'name':'get_project_data','arguments':{'project_id':42}}}"
  ++ nl.

End StdioScenario.

(* ================================================================== *)
(** * [security.py] *)
(* ================================================================== *)

Module Security.
Import Py.

(** [isinstance(x, int)]: [bool] is a subclass of [int]. *)
Definition is_int (x : PyVal) : bool :=
  match x with PyInt _ | PyBool _ => true | _ => false end.

(** The integer an [int] instance stands for ([True] is 1, [False] is
    0). *)
Definition int_value (x : PyVal) : Z :=
  match x with
  | PyInt n => n
  | PyBool true => 1
  | _ => 0
  end.

(** [SecurityManager.validate_project_id]. *)
Definition validate_project_id (project_id : PyVal) : Outcome PyVal :=
  if (negb (is_int project_id) || (int_value project_id <=? 0)%Z)%bool then
    Raise (ValueError "Project ID must be a positive integer")
  else Return project_id.

Definition in_range (c lo hi : ascii) : bool :=
  (Nat.leb (nat_of_ascii lo) (nat_of_ascii c)
   && Nat.leb (nat_of_ascii c) (nat_of_ascii hi))%bool.

(** [$] in a pattern: the end of the string, or the line feed that ends
    it. *)
Definition at_end (cs : list ascii) : bool :=
  match cs with
  | [] => true
  | [c] => Ascii.eqb c (ascii_of_nat 10)
  | _ => false
  end.

(** The group [([1-9]|[1-4][0-9]|5[0-3])] followed by [$], tried in this
    order. *)
Definition week_number_matches (cs : list ascii) : bool :=
  match cs with
  | [] => false
  | c1 :: rest =>
      ((in_range c1 "1" "9" && at_end rest)
       || match rest with
          | [] => false
          | c2 :: rest' =>
              ((in_range c1 "1" "4" && in_range c2 "0" "9" && at_end rest')
               || (Ascii.eqb c1 "5" && in_range c2 "0" "3" && at_end rest'))
          end)%bool
  end.

(** [re.match(r"^20[2-9][0-9]-W([1-9]|[1-4][0-9]|5[0-3])$", week)]. *)
Definition week_format_matches (week : string) : bool :=
  match list_ascii_of_string week with
  | c1 :: c2 :: c3 :: c4 :: c5 :: c6 :: rest =>
      (Ascii.eqb c1 "2" && Ascii.eqb c2 "0" && in_range c3 "2" "9"
       && in_range c4 "0" "9" && Ascii.eqb c5 "-" && Ascii.eqb c6 "W"
       && week_number_matches rest)%bool
  | _ => false
  end.

(** [SecurityManager.validate_week_format]; [re.match] refuses what is
    not a string. *)
Definition validate_week_format (week : PyVal) : Outcome PyVal :=
  match week with
  | PyStr s =>
      if negb (week_format_matches s) then
        Raise (ValueError "Week format must be YYYY-WXX (1-53)")
      else Return week
  | _ => Raise (TypeError "expected string or bytes-like object")
  end.

(** The test of the generator in [sanitize_input]:
    [ord(char) >= 32 or char in '\n\r\t'].  Every byte of a character
    beyond ASCII is 128 or more, so the test on the bytes of a string
    keeps and drops what the test on its characters does. *)
Definition keeps (c : ascii) : bool :=
  let n := nat_of_ascii c in
  (Nat.leb 32 n || Nat.eqb n 10 || Nat.eqb n 13 || Nat.eqb n 9)%bool.

Fixpoint keep_chars (s : string) : string :=
  match s with
  | EmptyString => EmptyString
  | String c rest => if keeps c then String c (keep_chars rest) else keep_chars rest
  end.

(** [SecurityManager.sanitize_input]: strings lose the characters the
    test refuses, dict values and list items are sanitized in turn, dict
    keys and every other value are handed back as they are. *)
Fixpoint sanitize_input (data : PyVal) : PyVal :=
  match data with
  | PyStr s => PyStr (keep_chars s)
  | PyDict d => PyDict (map (fun kv => (fst kv, sanitize_input (snd kv))) d)
  | PyList l => PyList (map sanitize_input l)
  | _ => data
  end.

(** The state of a [SecurityManager]. *)
Record SecurityManager := mkSecurityManager {
  sm_api_key : string;
  sm_encryption_key : string;
  initialized : bool
}.


(** [SecurityManager.validate_api_key]. *)
Definition validate_api_key (self : SecurityManager) (provided_key : string)
  : Outcome bool :=
  if negb (initialized self) then
    Raise (AuthenticationError "Security manager not initialized")
  else Return (String.eqb provided_key (sm_api_key self)).


(** The characters that are to go: the control characters U+0000 to
    U+001F other than the tab (9), the line feed (10) and the carriage
    return (13). *)
Definition dropped_controls : list nat :=
  [0; 1; 2; 3; 4; 5; 6; 7; 8; 11; 12; 14; 15; 16; 17; 18; 19; 20; 21; 22; 23;
   24; 25; 26; 27; 28; 29; 30; 31].

Definition dropped (c : ascii) : bool :=
  existsb (Nat.eqb (nat_of_ascii c)) dropped_controls.

(** A string without the characters that satisfy [p], the others in
    their order. *)
Definition without (p : ascii -> bool) (s : string) : string :=
  string_of_list_ascii (filter (fun c => negb (p c)) (list_ascii_of_string s)).

(** The strings a value holds as values: itself when it is a string,
    those of the items of a list and of the values of a dict, in
    order. *)
Fixpoint string_values (data : PyVal) : list string :=
  match data with
  | PyStr s => [s]
  | PyList l => flat_map string_values l
  | PyDict d => flat_map (fun kv => string_values (snd kv)) d
  | _ => []
  end.

(** No byte of the string is below 32, the code of the space. *)
Definition from_space (s : string) : bool :=
  forallb (fun c => Nat.leb 32 (nat_of_ascii c)) (list_ascii_of_string s).

(** The keys of a dict, the values left aside. *)
Definition keys (d : Dict) : list string := map fst d.

End Security.

Module SecurityVocabulary.
Import Py Security.

(** The character of a decimal digit. *)
Definition digit (a : nat) : ascii := ascii_of_nat (48 + a).

(** A year and a week number written as the validator expects them:
    the year, ["-W"], the week without leading zero. *)
Definition week_label (y n : nat) : string := str_of_nat y ++ "-W" ++ str_of_nat n.

Definition line_feed : string := String (ascii_of_nat 10) EmptyString.

End SecurityVocabulary.

(* ================================================================== *)
(** * [config.py] *)
(* ================================================================== *)

Module Config.
Import Py Core.

Fixpoint string_drop (n : nat) (s : string) : string :=
  match n, s with
  | S m, String _ rest => string_drop m rest
  | _, _ => s
  end.


(** The slice [s[-4:]]: the last four characters, or all of [s] when it
    has fewer. *)
Definition last_four (s : string) : string := string_drop (String.length s - 4) s.

(** [ServerConfig.to_dict]. *)
Definition to_dict (self : ServerConfig) : PyVal :=
  PyDict
    [("openproject_base_url", PyStr (openproject_base_url self));
     ("openproject_api_key",
      PyStr (if negb (String.eqb (openproject_api_key self) "")
             then "***" ++ last_four (openproject_api_key self)
             else ""));
     ("encryption_key",
      PyStr (if negb (String.eqb (encryption_key self) "default-encryption-key")
             then "***" ++ last_four (encryption_key self)
             else "default"));
     ("debug", PyBool (debug self))].

End Config.

(* ================================================================== *)
(** * Properties of the backend client *)
(* ================================================================== *)

Section ClientFacts.
Import Py Effects Client Spec.

(** The decorator is transparent on a call whose exception, if any, is
    of none of the listed classes. *)
Lemma on_exception_pass {A : Type} (wg : nat -> Z) (classes : list ExnClass)
    (tries : nat) (target : M A) (w : World) :
  (forall e, fst (target w) = Raise e -> isinstance_any e classes = false) ->
  Backoff.on_exception wg classes tries target w = target w.
Proof.
  intros Hpass. unfold Backoff.on_exception.
  destruct (tries - 1) as [|r]; simpl;
    destruct (target w) as [[a|e] w'] eqn:Ht; try reflexivity;
    rewrite (Hpass e eq_refl); reflexivity.
Qed.

(** What leaves the [try] statement of an attempt is never of a class
    the decorator retries on. *)
Lemma surfaced_not_retried (e : Exn) : surfaced e -> isinstance_any e retry_on = false.
Proof. intros [[m ->]|[m ->]]; reflexivity. Qed.

Lemma except_clauses_outcome {A : Type} (failed : string) (pid : PyVal) (e : Exn)
    (w : World) :
  exists e', @except_clauses A failed pid e w = (Raise e', w) /\ surfaced e'.
Proof.
  unfold except_clauses, on_api_exception, raise.
  destruct e; try (eexists; split; [reflexivity|right; eexists; reflexivity]).
  destruct (status =? 401)%Z; [|destruct (status =? 404)%Z];
    (eexists; split; [reflexivity|left; eexists; reflexivity]).
Qed.

(** A [try] statement closed by those clauses, around a body that sends
    one request and then computes without effect. *)
Lemma attempt_outcome {A : Type} (rq : Request) (extract : PyVal -> Outcome A)
    (failed : string) (pid : PyVal) (w : World) :
  let attempt :=
    try_except (Effects.bind (send rq) (fun r =>
                Effects.bind (lift (extract r)) (fun a => ret a)))
               (except_clauses failed pid) in
  snd (attempt w) = after w [EvRequest rq] /\
  (forall e, fst (attempt w) = Raise e -> surfaced e) /\
  (forall a, fst (attempt w) = Return a ->
     exists r, backend w (trace w) rq = Return r /\ extract r = Return a).
Proof.
  unfold try_except, Effects.bind, send, lift, ret; simpl.
  destruct (backend w (trace w) rq) as [r|e0].
  - destruct (extract r) as [a|e1] eqn:Hx; simpl.
    + split; [reflexivity|split; [discriminate|]].
      intros a' Ha; inversion Ha; subst. exists r; split; [reflexivity|exact Hx].
    + destruct (except_clauses_outcome (A:=A) failed pid e1 (after w [EvRequest rq]))
        as (e' & -> & Hs); simpl.
      split; [reflexivity|split; [|discriminate]].
      intros e He; inversion He; subst; exact Hs.
  - destruct (except_clauses_outcome (A:=A) failed pid e0 (after w [EvRequest rq]))
      as (e' & -> & Hs); simpl.
    split; [reflexivity|split; [|discriminate]].
    intros e He; inversion He; subst; exact Hs.
Qed.

Lemma after_after (w : World) (a b : list Event) : after (after w a) b = after w (a ++ b).
Proof. unfold after; simpl. now rewrite <- app_assoc. Qed.

(** [get_project] makes exactly one attempt. *)
Lemma get_project_once (pid : PyVal) (w : World) :
  get_project pid w = get_project_attempt pid (after w [EvCall (OpGetProject pid)]).
Proof.
  unfold get_project, Effects.bind, log; simpl.
  apply on_exception_pass. intros e He.
  apply surfaced_not_retried.
  exact (proj1 (proj2 (attempt_outcome (ReqGetProject pid) _extract_project_data
                         "Failed to get project " pid _)) e He).
Qed.

Lemma get_work_packages_once (pid filters : PyVal) (w : World) :
  get_work_packages pid filters w =
  get_work_packages_attempt pid filters (after w [EvCall (OpGetWorkPackages pid filters)]).
Proof.
  unfold get_work_packages, Effects.bind, log; simpl.
  apply on_exception_pass. intros e He.
  apply surfaced_not_retried.
  exact (proj1 (proj2 (attempt_outcome _ _extract_work_packages_data
                         "Failed to get work packages for project " pid _)) e He).
Qed.

End ClientFacts.

Section ClientClaims.
Import Py Effects Client Spec.

Lemma get_project_trace (pid : PyVal) (w : World) :
  trace (snd (get_project pid w)) =
  (trace w ++ [EvCall (OpGetProject pid); EvRequest (ReqGetProject pid)])%list.
Proof.
  rewrite get_project_once.
  unfold get_project_attempt.
  rewrite (proj1 (attempt_outcome _ _ _ _ _)), after_after. reflexivity.
Qed.

Lemma get_work_packages_trace (pid filters : PyVal) (w : World) :
  exists rq,
    trace (snd (get_work_packages pid filters w)) =
    (trace w ++ [EvCall (OpGetWorkPackages pid filters); EvRequest rq])%list.
Proof.
  rewrite get_work_packages_once.
  unfold get_work_packages_attempt.
  eexists.
  rewrite (proj1 (attempt_outcome _ _ _ _ _)), after_after. reflexivity.
Qed.

Lemma requests_app (t u : list Event) : requests (t ++ u) = requests t + requests u.
Proof. unfold requests. now rewrite filter_app, length_app. Qed.

Lemma sleeps_app (t u : list Event) : sleeps (t ++ u) = sleeps t + sleeps u.
Proof. unfold sleeps. now rewrite filter_app, length_app. Qed.

(** The decorator does retry when an exception of a listed class reaches
    it: a bare request to a backend that is down is sent three times,
    with a sleep of ceiling 1 between the tries. *)
Example on_exception_retries_listed :
  Backoff.on_exception wait_gen retry_on max_tries (send (ReqGetProject (PyInt 1)))
    (Scenario.world Scenario.unreachable)
  = (Raise (RequestError "connection refused"),
     after (Scenario.world Scenario.unreachable)
       [EvRequest (ReqGetProject (PyInt 1)); EvSleep 1;
        EvRequest (ReqGetProject (PyInt 1)); EvSleep 1;
        EvRequest (ReqGetProject (PyInt 1))]).
Proof. reflexivity. Qed.

(** A backend status of 401 or 404 leaves [get_project] as the
    [TypeError] of the incomplete [OpenProjectError(...)] call. *)
Example get_project_on_status :
  fst (get_project (PyInt 1) (Scenario.world (Scenario.refusing 401)))
  = Raise (TypeError "OpenProjectError.__init__() missing required positional argument")
  /\
  fst (get_project (PyInt 1) (Scenario.world (Scenario.refusing 404)))
  = Raise (TypeError "OpenProjectError.__init__() missing required positional argument").
Proof. split; reflexivity. Qed.

(** C3 (evaluation of the code where the claim fails).  Whatever the
    backend answers, [get_project] and [get_work_packages] hand exactly
    one request to the backend and never sleep: the [except Exception]
    clause turns a connection failure into a plain
    [OpenProjectClientError] before the decorator sees it.  So on a
    backend whose first answer is a connection failure and which would
    serve the project at the next try, [get_project] fails after a
    single request. *)
Theorem get_project_transient_not_retried :
  (forall pid w,
     requests (trace (snd (get_project pid w))) = S (requests (trace w)) /\
     sleeps (trace (snd (get_project pid w))) = sleeps (trace w)) /\
  (forall pid filters w,
     requests (trace (snd (get_work_packages pid filters w))) = S (requests (trace w)) /\
     sleeps (trace (snd (get_work_packages pid filters w))) = sleeps (trace w)) /\
  (let failed := get_project (PyInt 1) (Scenario.world Scenario.flaky) in
   fst failed =
     Raise (OpenProjectClientError "Failed to get project 1: connection refused" None) /\
   trace (snd failed) =
     [EvCall (OpGetProject (PyInt 1)); EvRequest (ReqGetProject (PyInt 1))] /\
   exists p, fst (get_project_attempt (PyInt 1) (snd failed)) = Return p).
Proof.
  split; [|split].
  - intros pid w. rewrite get_project_trace, requests_app, sleeps_app.
    unfold requests, sleeps; simpl. split; lia.
  - intros pid filters w.
    destruct (get_work_packages_trace pid filters w) as [rq ->].
    rewrite requests_app, sleeps_app. unfold requests, sleeps; simpl. split; lia.
  - simpl. split; [reflexivity|split; [reflexivity|]].
    eexists. reflexivity.
Qed.

(** C2.  [get_weekly_report] starts both fetches whatever either of them
    does, and is all-or-nothing: an exception of the project fetch is
    raised (also when the work-package fetch failed too), otherwise an
    exception of the work-package fetch is raised, and a report is
    returned only with the project and the work packages that the two
    fetches returned. *)
Theorem get_weekly_report_all_or_nothing (pid wk : PyVal) (w : World) :
  let w0 := after w [EvCall (OpGetWeeklyReport pid wk)] in
  let fetch_p := get_project pid w0 in
  let fetch_wp := get_work_packages pid PyNone (snd fetch_p) in
  let report := get_weekly_report pid wk w in
  snd report = snd fetch_wp /\
  (forall e, fst fetch_p = Raise e -> fst report = Raise e) /\
  (forall p e, fst fetch_p = Return p -> fst fetch_wp = Raise e -> fst report = Raise e) /\
  (forall r, fst report = Return r ->
     fst fetch_p = Return (project r) /\ fst fetch_wp = Return (work_packages r)).
Proof.
  unfold get_weekly_report, Effects.bind, try_except, gather, log, raise, ret, lift.
  simpl.
  destruct (get_project pid (after w [EvCall (OpGetWeeklyReport pid wk)]))
    as [[p|e] w1]; simpl;
    destruct (get_work_packages pid PyNone w1) as [[wps|e'] w2]; simpl.
  - unfold WeeklyReportData_new.
    destruct (to_str (py_or wk (PyStr "current"))) as [s|]; simpl.
    + split; [reflexivity|split; [discriminate|split; [discriminate|]]].
      intros r Hr; inversion Hr; subst; split; reflexivity.
    + split; [reflexivity|split; [discriminate|split; discriminate]].
  - split; [reflexivity|split; [discriminate|split; [|discriminate]]].
    intros p0 e0 _ He; inversion He; reflexivity.
  - split; [reflexivity|split; [|split; discriminate]].
    intros e0 He; inversion He; reflexivity.
  - split; [reflexivity|split; [|split; discriminate]].
    intros e0 He; inversion He; reflexivity.
Qed.

Lemma get_weekly_report_all_or_nothing_witness :
  fst (get_weekly_report (PyInt 42) PyNone (Scenario.world Scenario.no_work_packages))
  = Raise (OpenProjectClientError
             "Failed to get work packages for project 42: connection reset" None).
Proof.
  eapply (proj1 (proj2 (proj2 (get_weekly_report_all_or_nothing
                                 (PyInt 42) PyNone
                                 (Scenario.world Scenario.no_work_packages)))));
    reflexivity.
Defined.

(** C10.  The report of a successful [get_weekly_report] carries the
    [week] argument itself when that is a non-empty string and
    ["current"] when the argument is [None] or otherwise false; its
    summary is the text "Found n work packages" for the number n of work
    packages in the report. *)
Theorem weekly_report_week_and_summary (pid wk : PyVal) (w : World)
    (r : WeeklyReportData) :
  fst (get_weekly_report pid wk w) = Return r ->
  (forall s, wk = PyStr s -> s <> "" -> week r = s) /\
  (truthy wk = false -> week r = "current") /\
  summary r =
    Some ("Found " ++ str_of_nat (List.length (work_packages r)) ++ " work packages").
Proof.
  unfold get_weekly_report, Effects.bind, try_except, gather, log, raise, ret, lift.
  simpl.
  destruct (get_project pid (after w [EvCall (OpGetWeeklyReport pid wk)]))
    as [[p|e] w1]; simpl;
    destruct (get_work_packages pid PyNone w1) as [[wps|e'] w2]; simpl;
    try discriminate.
  unfold WeeklyReportData_new, py_or.
  destruct (truthy wk) eqn:Ht.
  - destruct (to_str wk) as [s0|] eqn:Hs; simpl; [|discriminate].
    intros Hr; inversion Hr; subst; simpl.
    split; [|split; [discriminate|reflexivity]].
    intros s -> _. simpl in Hs. congruence.
  - simpl. intros Hr; inversion Hr; subst; simpl.
    split; [|split; reflexivity].
    intros s -> Hne. simpl in Ht.
    destruct (String.eqb_spec s ""); [contradiction|discriminate].
Qed.

Lemma weekly_report_week_and_summary_witness :
  exists r,
    fst (get_weekly_report (PyInt 42) (PyStr "2025-W41") (Scenario.world Scenario.healthy))
    = Return r /\
    week r = "2025-W41" /\ summary r = Some "Found 2 work packages".
Proof.
  eexists. split; [reflexivity|].
  destruct (weekly_report_week_and_summary (PyInt 42) (PyStr "2025-W41")
              (Scenario.world Scenario.healthy) _ eq_refl) as (Hweek & _ & Hsum).
  split.
  - apply (Hweek "2025-W41"); [reflexivity|discriminate].
  - exact Hsum.
Defined.

End ClientClaims.

(* ================================================================== *)
(** * Properties of the mapping from backend responses *)
(* ================================================================== *)

Section MappingFacts.
Import Py Effects Client Spec.

Lemma obind_return {A B : Type} (o : Outcome A) (k : A -> Outcome B) (b : B) :
  obind o k = Return b -> exists a, o = Return a /\ k a = Return b.
Proof. destruct o as [a|e]; simpl; [eauto|discriminate]. Qed.

Lemma obind_raise {A B : Type} (o : Outcome A) (k : A -> Outcome B) (e : Exn) :
  obind o k = Raise e -> o = Raise e \/ exists a, o = Return a /\ k a = Raise e.
Proof. destruct o as [a|e0]; simpl; [eauto|intros H; left; congruence]. Qed.

Lemma required_raise {A : Type} (f : string) (conv : PyVal -> option A) (kw : Dict) (e : Exn) :
  required f conv kw = Raise e -> validation_error e.
Proof.
  unfold required. destruct (lookup f kw) as [v|]; [destruct (conv v)|];
    intros H; inversion H; eexists; reflexivity.
Qed.

Lemma optional_raise {A : Type} (f : string) (conv : PyVal -> option A) (kw : Dict) (e : Exn) :
  optional f conv kw = Raise e -> validation_error e.
Proof.
  unfold optional. destruct (lookup f kw) as [v|]; [|discriminate].
  destruct v; try discriminate; destruct (conv _);
    intros H; inversion H; eexists; reflexivity.
Qed.

Lemma required_return {A : Type} (f : string) (conv : PyVal -> option A) (kw : Dict) (a : A) :
  required f conv kw = Return a -> exists v, lookup f kw = Some v /\ conv v = Some a.
Proof.
  unfold required. destruct (lookup f kw) as [v|]; [|discriminate].
  destruct (conv v) eqn:Hc; [|discriminate].
  intros H; inversion H; subst; eauto.
Qed.

Lemma to_int_some (v : PyVal) (n : Z) : to_int v = Some n -> v = PyInt n.
Proof. destruct v; simpl; congruence. Qed.

Lemma to_str_some (v : PyVal) (s : string) : to_str v = Some s -> v = PyStr s.
Proof. destruct v; simpl; congruence. Qed.

#[local] Ltac chain_raise H :=
  repeat (apply obind_raise in H;
          destruct H as [H|(? & _ & H)];
          [solve [eauto using required_raise, optional_raise]|]);
  try discriminate H.

Lemma ProjectInfo_new_raise (kw : Dict) (e : Exn) :
  ProjectInfo_new kw = Raise e -> validation_error e.
Proof. unfold ProjectInfo_new; intros H; chain_raise H. Qed.

Lemma WorkPackageInfo_new_raise (kw : Dict) (e : Exn) :
  WorkPackageInfo_new kw = Raise e -> validation_error e.
Proof. unfold WorkPackageInfo_new; intros H; chain_raise H. Qed.

(** A project comes out of the constructor with the [id], [name] and
    [identifier] it was given. *)
Lemma ProjectInfo_new_return (kw : Dict) (p : ProjectInfo) :
  ProjectInfo_new kw = Return p ->
  lookup "id" kw = Some (PyInt (p_id p)) /\
  lookup "name" kw = Some (PyStr (p_name p)) /\
  lookup "identifier" kw = Some (PyStr (p_identifier p)).
Proof.
  unfold ProjectInfo_new; intros H.
  apply obind_return in H; destruct H as (i & Hi & H).
  apply obind_return in H; destruct H as (n & Hn & H).
  apply obind_return in H; destruct H as (ident & Hid & H).
  apply obind_return in H; destruct H as (d & _ & H).
  apply obind_return in H; destruct H as (c & _ & H).
  apply obind_return in H; destruct H as (u & _ & H).
  inversion H; subst; simpl.
  apply required_return in Hi; destruct Hi as (v1 & -> & H1).
  apply required_return in Hn; destruct Hn as (v2 & -> & H2).
  apply required_return in Hid; destruct Hid as (v3 & -> & H3).
  now rewrite (to_int_some _ _ H1), (to_str_some _ _ H2), (to_str_some _ _ H3).
Qed.

Lemma WorkPackageInfo_new_return (kw : Dict) (info : WorkPackageInfo) :
  WorkPackageInfo_new kw = Return info ->
  lookup "subject" kw = Some (PyStr (wp_subject info)).
Proof.
  unfold WorkPackageInfo_new; intros H.
  apply obind_return in H; destruct H as (i & _ & H).
  apply obind_return in H; destruct H as (s & Hs & H).
  repeat (apply obind_return in H; destruct H as (? & _ & H)).
  inversion H; subst; simpl.
  apply required_return in Hs; destruct Hs as (v & -> & Hv).
  now rewrite (to_str_some _ _ Hv).
Qed.

Lemma convert_work_package_raise (wp : PyVal) (e : Exn) :
  convert_work_package wp = Raise e -> validation_error e.
Proof.
  unfold convert_work_package.
  destruct (has_dunder_dict wp).
  - intros H. apply obind_raise in H. destruct H as [H|(? & _ & H)]; [|discriminate].
    eauto using WorkPackageInfo_new_raise.
  - destruct wp; try discriminate.
    intros H. apply obind_raise in H. destruct H as [H|(? & _ & H)]; [|discriminate].
    eauto using WorkPackageInfo_new_raise.
Qed.

Lemma convert_work_packages_raise (items : list PyVal) (e : Exn) :
  convert_work_packages items = Raise e -> validation_error e.
Proof.
  induction items as [|wp rest IH]; simpl; [discriminate|].
  intros H. apply obind_raise in H. destruct H as [H|(first & _ & H)].
  - eauto using convert_work_package_raise.
  - apply obind_raise in H. destruct H as [H|(? & _ & H)]; [auto|discriminate].
Qed.

(** One dict without [subject] among the elements makes the whole
    conversion fail. *)
Lemma convert_work_packages_missing_subject (items : list PyVal) (d : Dict) :
  In (PyDict d) items -> lookup "subject" d = None ->
  exists m, convert_work_packages items = Raise (PydanticValidationError m).
Proof.
  intros Hin Hmiss.
  assert (Hfail : forall r, convert_work_packages items <> Return r).
  { induction items as [|wp rest IH]; [destruct Hin|].
    intros r Hr; simpl in Hr.
    apply obind_return in Hr; destruct Hr as (first & Hfirst & Hr).
    apply obind_return in Hr; destruct Hr as (more & Hmore & _).
    destruct Hin as [->|Hin].
    - simpl in Hfirst.
      apply obind_return in Hfirst; destruct Hfirst as (info & Hinfo & _).
      apply WorkPackageInfo_new_return in Hinfo. congruence.
    - exact (IH Hin more Hmore). }
  destruct (convert_work_packages items) as [r|e] eqn:Hc.
  - destruct (Hfail r eq_refl).
  - destruct (convert_work_packages_raise items e Hc) as [m ->]. eauto.
Qed.

End MappingFacts.

Section MappingClaims.
Import Py Effects Client Spec.

(** C6 (counterexample).  An object-shaped project response without
    [name], and an object-shaped work package without [subject], are
    mapped without error: the project is called "Unknown Project" and
    the work package has the empty subject. *)
Lemma missing_required_field_defaulted :
  let project_result := PyObj [("id", PyInt 7); ("identifier", PyStr "demo")] in
  let work_packages_result := PyList [PyObj [("id", PyInt 1)]] in
  response_field project_result "name" = None /\
  _extract_project_data project_result =
    Return (mkProjectInfo 7 "Unknown Project" "demo" (Some []) (Some "") (Some "")) /\
  _extract_work_packages_data work_packages_result =
    Return [mkWorkPackageInfo (Some 1%Z) "" (Some []) None None None None None None].
Proof. repeat split. Qed.

(** C6 (amended).  A dict-shaped response that lacks a required field
    ([name] or [identifier] of a project, [subject] of a work package)
    makes the mapping step fail with the validation error of the model
    constructor, which [get_project] hands on as a plain
    [OpenProjectClientError].  An object-shaped response that lacks
    [name], [identifier] or [subject] is mapped with "Unknown Project",
    the empty identifier or the empty subject in its place. *)
Theorem missing_required_field :
  (forall d,
     lookup "name" d = None \/ lookup "identifier" d = None ->
     exists m, _extract_project_data (PyDict d) = Raise (PydanticValidationError m)) /\
  (forall d pid w,
     backend w (trace w ++ [EvCall (OpGetProject pid)])%list (ReqGetProject pid)
       = Return (PyDict d) ->
     lookup "name" d = None \/ lookup "identifier" d = None ->
     exists m, fst (get_project pid w) = Raise (OpenProjectClientError m None)) /\
  (forall d items,
     In (PyDict d) items -> lookup "subject" d = None ->
     exists m,
       _extract_work_packages_data (PyList items) = Raise (PydanticValidationError m)) /\
  (forall attrs p,
     _extract_project_data (PyObj attrs) = Return p ->
     (lookup "name" attrs = None -> p_name p = "Unknown Project") /\
     (lookup "identifier" attrs = None -> p_identifier p = "")) /\
  (forall attrs infos,
     lookup "subject" attrs = None ->
     _extract_work_packages_data (PyList [PyObj attrs]) = Return infos ->
     exists info, infos = [info] /\ wp_subject info = "").
Proof.
  assert (Hdict : forall d,
            lookup "name" d = None \/ lookup "identifier" d = None ->
            exists m, ProjectInfo_new d = Raise (PydanticValidationError m)).
  { intros d Hmiss.
    destruct (ProjectInfo_new d) as [p|e] eqn:Hp.
    - apply ProjectInfo_new_return in Hp. destruct Hp as (_ & Hn & Hi).
      destruct Hmiss; congruence.
    - destruct (ProjectInfo_new_raise d e Hp) as [m ->]. eauto. }
  split; [|split; [|split; [|split]]].
  - intros d Hmiss. exact (Hdict d Hmiss).
  - intros d pid w Hb Hmiss.
    rewrite get_project_once.
    unfold get_project_attempt, try_except, Effects.bind, send, lift, ret.
    cbn [after trace backend api_key]. rewrite Hb.
    change (_extract_project_data (PyDict d)) with (ProjectInfo_new d).
    destruct (Hdict d Hmiss) as [m ->].
    eexists. reflexivity.
  - intros d items Hin Hmiss.
    unfold _extract_work_packages_data; simpl.
    exact (convert_work_packages_missing_subject items d Hin Hmiss).
  - intros attrs p Hp.
    unfold _extract_project_data in Hp; cbn [has_dunder_dict] in Hp.
    apply ProjectInfo_new_return in Hp. simpl in Hp.
    destruct Hp as (_ & Hn & Hi).
    split; intros Hmiss; rewrite Hmiss in *; congruence.
  - intros attrs infos Hmiss.
    unfold _extract_work_packages_data;
      cbn [hasattr is_dict is_list andb obind iterate convert_work_packages].
    intros H.
    apply obind_return in H; destruct H as (first & Hfirst & H).
    unfold convert_work_package in Hfirst; cbn [has_dunder_dict] in Hfirst.
    apply obind_return in Hfirst; destruct Hfirst as (info & Hinfo & Hfirst).
    inversion Hfirst; subst. inversion H; subst.
    exists info. split; [reflexivity|].
    apply WorkPackageInfo_new_return in Hinfo. simpl in Hinfo.
    rewrite Hmiss in Hinfo. congruence.
Qed.

Lemma missing_required_field_witness :
  (exists m,
     fst (get_project (PyInt 42) (Scenario.world Scenario.nameless_dict))
     = Raise (OpenProjectClientError m None)) /\
  (forall p,
     _extract_project_data (PyObj [("id", PyInt 7)]) = Return p ->
     p_name p = "Unknown Project" /\ p_identifier p = "").
Proof.
  destruct missing_required_field as (_ & Hget & _ & Hobj & _).
  split.
  - apply (Hget [("id", PyInt 42); ("identifier", PyStr "demo")]);
      [reflexivity|left; reflexivity].
  - intros p Hp. destruct (Hobj _ p Hp) as [Hn Hi].
    split; [apply Hn|apply Hi]; reflexivity.
Defined.

(** C7 (counterexample).  [get_project] returns a project whose [id] is
    0 from a backend whose project object has no [id]. *)
Lemma project_id_zero :
  exists p,
    fst (get_project (PyInt 42) (Scenario.world Scenario.anonymous_project)) = Return p /\
    ~ (p_id p > 0)%Z.
Proof. eexists. split; [reflexivity|]. simpl. lia. Qed.

(** C7 (amended).  When [get_project] returns a project, the backend
    answered with a response [r] from which it was mapped, and the
    project's [id] is the integer [r] carries as [id], or 0 when [r] is
    an object without [id].  It is positive only if the backend's is. *)
Theorem project_id_from_backend (pid : PyVal) (w : World) (p : ProjectInfo) :
  fst (get_project pid w) = Return p ->
  exists r,
    backend w (trace w ++ [EvCall (OpGetProject pid)])%list (ReqGetProject pid) = Return r /\
    (forall n, response_field r "id" = Some (PyInt n) -> p_id p = n) /\
    (has_dunder_dict r = true -> response_field r "id" = None -> p_id p = 0%Z).
Proof.
  rewrite get_project_once. unfold get_project_attempt. intros Hp.
  destruct (attempt_outcome (ReqGetProject pid) _extract_project_data
              "Failed to get project " pid (after w [EvCall (OpGetProject pid)]))
    as (_ & _ & Hret).
  destruct (Hret p Hp) as (r & Hb & Hx).
  exists r. split; [exact Hb|].
  unfold _extract_project_data in Hx.
  destruct r; try (simpl in Hx; discriminate Hx);
    cbn [has_dunder_dict is_dict] in Hx;
    apply ProjectInfo_new_return in Hx; destruct Hx as (Hid & _ & _); simpl in Hid |- *.
  - split; [intros n Hn; congruence|discriminate].
  - split; [intros n Hn|intros _ Hn]; rewrite Hn in Hid; congruence.
Qed.

Lemma project_id_from_backend_witness :
  exists p,
    fst (get_project (PyInt 42) (Scenario.world Scenario.healthy)) = Return p /\
    p_id p = 42%Z.
Proof.
  eexists. split; [reflexivity|].
  destruct (project_id_from_backend (PyInt 42) (Scenario.world Scenario.healthy) _ eq_refl)
    as (r & Hb & Hid & _).
  simpl in Hb. inversion Hb; subst r.
  apply Hid. reflexivity.
Defined.

End MappingClaims.

(* ================================================================== *)
(** * Properties of the MCP core *)
(* ================================================================== *)

Section CoreClaims.
Import Py Effects Client Core Spec.

(** C9.  [_list_tools] returns the same list on every call, whatever the
    instance and the world: three tools named [get_project],
    [get_work_packages] and [get_weekly_report], in this order, each
    declaring [project_id] as a required parameter of type integer; the
    call changes nothing. *)
Theorem list_tools_constant :
  exists tools,
    (forall self w, _list_tools self w = (Return tools, w)) /\
    map tool_name tools = ["get_project"; "get_work_packages"; "get_weekly_report"] /\
    forallb (fun t => declares_required (inputSchema t) "project_id" "integer") tools
    = true.
Proof. eexists. repeat split. Qed.

Lemma negative_is_truthy (n : Z) : (n < 0)%Z -> truthy (PyInt n) = true.
Proof. intros Hn; simpl. destruct (Z.eqb_spec n 0); [lia|reflexivity]. Qed.

Lemma bind_ret_world {A B : Type} (m : M A) (f : A -> B) (w : World) :
  snd (Effects.bind m (fun a => ret (f a)) w) = snd (m w).
Proof. unfold Effects.bind, ret. destruct (m w) as [[a|e] w']; reflexivity. Qed.

Lemma get_weekly_report_world (pid wk : PyVal) (w : World) :
  snd (get_weekly_report pid wk w) =
  snd (get_work_packages pid PyNone
         (snd (get_project pid (after w [EvCall (OpGetWeeklyReport pid wk)])))).
Proof.
  unfold get_weekly_report, Effects.bind, try_except, gather, log, raise, ret, lift.
  simpl.
  destruct (get_project pid (after w [EvCall (OpGetWeeklyReport pid wk)]))
    as [[p|e] w1]; simpl;
    destruct (get_work_packages pid PyNone w1) as [[wps|e'] w2]; simpl; try reflexivity.
  destruct (WeeklyReportData_new p wps _ _); reflexivity.
Qed.

(** A weekly report costs the call itself, then one call and one request
    for the project, then one call and one request for the work
    packages. *)
Lemma get_weekly_report_trace (pid wk : PyVal) (w : World) :
  exists rq,
    trace (snd (get_weekly_report pid wk w)) =
    (trace w ++ [EvCall (OpGetWeeklyReport pid wk);
                 EvCall (OpGetProject pid); EvRequest (ReqGetProject pid);
                 EvCall (OpGetWorkPackages pid PyNone); EvRequest rq])%list.
Proof.
  rewrite get_weekly_report_world.
  destruct (get_work_packages_trace pid PyNone
              (snd (get_project pid (after w [EvCall (OpGetWeeklyReport pid wk)]))))
    as [rq ->].
  exists rq. rewrite get_project_trace. simpl.
  now rewrite <- !app_assoc.
Qed.

(** With [project_id] 0 (or absent) each of the three tools answers with
    the invalid-arguments result and leaves the world untouched. *)
Lemma falsy_project_id_rejected (self : MCPCore) (c : OpenProjectClient)
    (name : string) (arguments : Dict) (w : World) :
  client self = Some c ->
  In name ["get_project"; "get_work_packages"; "get_weekly_report"] ->
  truthy (dict_get arguments "project_id") = false ->
  _call_tool self name arguments w =
  ((mkCallToolResult (PyDict [("error", PyStr "Invalid arguments: project_id is required")]),
    self), w).
Proof.
  intros Hc Hname Hfalsy.
  unfold _call_tool, ensure_client. rewrite Hc. unfold ret.
  unfold dispatch_tool, _handle_get_project, _handle_get_work_packages,
    _handle_get_weekly_report.
  rewrite Hfalsy.
  destruct Hname as [<-|[<-|[<-|[]]]]; reflexivity.
Qed.

(** The world [_call_tool] leaves is the world its handler leaves. *)
Lemma call_tool_world (self : MCPCore) (c : OpenProjectClient) (name : string)
    (arguments : Dict) (w : World) :
  client self = Some c ->
  snd (_call_tool self name arguments w) = snd (dispatch_tool self name arguments w).
Proof.
  intros Hc. unfold _call_tool, ensure_client. rewrite Hc. unfold ret.
  destruct (dispatch_tool self name arguments w) as [[r|e] w2]; reflexivity.
Qed.

(** C1 (evaluation of the code where the claim fails).  The guard of
    every handler is [if not project_id], which lets a negative integer
    through: with a client at hand, a [tools/call] of any of the three
    tools of the core, and of [fetch_weekly_report] of the FastAPI
    server, with a negative [project_id] enters the client operation
    with that id. *)
Theorem negative_project_id_reaches_client (n : Z) (self : MCPCore)
    (c : OpenProjectClient) (w : World) :
  (n < 0)%Z ->
  client self = Some c ->
  let arguments := [("project_id", PyInt n)] in
  In (EvCall (OpGetProject (PyInt n)))
     (trace (snd (_call_tool self "get_project" arguments w))) /\
  In (EvCall (OpGetWorkPackages (PyInt n) PyNone))
     (trace (snd (_call_tool self "get_work_packages" arguments w))) /\
  In (EvCall (OpGetWeeklyReport (PyInt n) PyNone))
     (trace (snd (_call_tool self "get_weekly_report" arguments w))) /\
  In (EvCall (OpGetWeeklyReport (PyInt n) PyNone))
     (trace (snd (Stdio.handle_fetch_weekly_report (PyDict arguments) (Some c) w))).
Proof.
  intros Hn Hc arguments.
  pose proof (negative_is_truthy n Hn) as Ht.
  rewrite !(call_tool_world self c) by exact Hc.
  unfold dispatch_tool, _handle_get_project, _handle_get_work_packages,
    _handle_get_weekly_report, Stdio.handle_fetch_weekly_report, Stdio.with_client.
  cbn [String.eqb Ascii.eqb Bool.eqb arguments dict_get lookup get_method dict_get_or].
  rewrite Ht, Hc. cbn [negb].
  repeat split.
  - rewrite bind_ret_world, get_project_trace.
    apply in_or_app; right; left; reflexivity.
  - rewrite bind_ret_world.
    destruct (get_work_packages_trace (PyInt n) PyNone w) as [rq ->].
    apply in_or_app; right; left; reflexivity.
  - rewrite bind_ret_world.
    destruct (get_weekly_report_trace (PyInt n) PyNone w) as [rq ->].
    apply in_or_app; right; left; reflexivity.
  - unfold lift. cbn [Effects.bind]. rewrite Ht. cbn [negb].
    rewrite bind_ret_world.
    destruct (get_weekly_report_trace (PyInt n) PyNone w) as [rq ->].
    apply in_or_app; right; left; reflexivity.
Qed.

Lemma negative_project_id_reaches_client_witness :
  In (EvCall (OpGetProject (PyInt (-1))))
     (trace (snd (_call_tool Scenario.core "get_project" [("project_id", PyInt (-1))]
                    (Scenario.world Scenario.healthy)))).
Proof.
  apply (negative_project_id_reaches_client (-1) Scenario.core
           (mkClient "secret-key") (Scenario.world Scenario.healthy));
    [lia|reflexivity].
Defined.

(** The same call, run: the backend is asked for project -1 and the
    tool answers with what it returned. *)
Example call_tool_minus_one :
  let out := _call_tool Scenario.core "get_project" [("project_id", PyInt (-1))]
               (Scenario.world Scenario.healthy) in
  trace (snd out) =
    [EvCall (OpGetProject (PyInt (-1))); EvRequest (ReqGetProject (PyInt (-1)))] /\
  dict_get (match payload (fst (fst out)) with PyDict d => d | _ => [] end) "name"
  = PyStr "Demo".
Proof. split; reflexivity. Qed.

End CoreClaims.

(* ================================================================== *)
(** * [json_loads] yields values that [json.dumps] accepts *)
(* ================================================================== *)

Section ParserFacts.
Import Py Json.

Lemma lookup_serializable (d : Dict) (k : string) (v : PyVal) :
  all_serializable d = true -> lookup k d = Some v -> serializable v = true.
Proof.
  induction d as [|[k' v'] rest IH]; simpl; [discriminate|].
  intros Hall. apply andb_prop in Hall. destruct Hall as [Hv Hrest].
  destruct (String.eqb k k'); [intros H; inversion H; subst; exact Hv|auto].
Qed.

Lemma filter_serializable (p : string * PyVal -> bool) (d : Dict) :
  all_serializable d = true -> all_serializable (filter p d) = true.
Proof.
  induction d as [|kv rest IH]; simpl; [reflexivity|].
  intros Hall. apply andb_prop in Hall. destruct Hall as [Hv Hrest].
  destruct (p kv); simpl; [rewrite Hv|]; auto.
Qed.

Lemma scan_literal_serializable (ls : list (string * PyVal)) (cs r : list ascii)
    (v : PyVal) :
  all_serializable ls = true -> scan_literal ls cs = Some (v, r) -> serializable v = true.
Proof.
  induction ls as [|[l x] more IH]; simpl; [discriminate|].
  intros Hall. apply andb_prop in Hall. destruct Hall as [Hx Hmore].
  destruct (strip_prefix (list_ascii_of_string l) cs).
  - intros H; inversion H; subst; exact Hx.
  - auto.
Qed.

#[local] Ltac break_match H :=
  match type of H with
  | context [match ?x with _ => _ end] => destruct x eqn:?
  end.

Lemma scan_number_serializable (cs r : list ascii) (v : PyVal) :
  scan_number cs = Some (v, r) -> serializable v = true.
Proof.
  unfold scan_number. intros H.
  repeat (break_match H; try discriminate H);
    inversion H; subst; reflexivity.
Qed.

Lemma scan_serializable (fuel : nat) :
  (forall cs v r, scan_once fuel cs = Some (v, r) -> serializable v = true) /\
  (forall cs vs r, scan_items fuel cs = Some (vs, r) -> forallb serializable vs = true) /\
  (forall cs d r, scan_members fuel cs = Some (d, r) -> all_serializable d = true).
Proof.
  induction fuel as [|f (IHonce & IHitems & IHmembers)];
    [repeat split; intros; discriminate|].
  split; [|split].
  - intros cs v r H. cbn [scan_once scan_items scan_members] in H.
    repeat (break_match H; try discriminate H);
      try (inversion H; subst; simpl; solve [reflexivity | eauto]).
    + inversion H; subst. eapply scan_literal_serializable; [|eassumption]. reflexivity.
    + eapply scan_number_serializable; eassumption.
  - intros cs vs r H. cbn [scan_once scan_items scan_members] in H.
    repeat (break_match H; try discriminate H);
      inversion H; subst; simpl;
      repeat match goal with
             | E : scan_once f _ = Some _ |- _ => apply IHonce in E; rewrite E
             | E : scan_items f _ = Some _ |- _ => apply IHitems in E; rewrite E
             end; reflexivity.
  - intros cs d r H. cbn [scan_once scan_items scan_members] in H.
    repeat (break_match H; try discriminate H);
      inversion H; subst; unfold all_serializable; simpl;
      repeat match goal with
             | E : scan_once f _ = Some _ |- _ => apply IHonce in E
             | E : scan_members f _ = Some _ |- _ => apply IHmembers in E
             end.
    all: apply andb_true_intro; split;
      [ solve [assumption | eapply lookup_serializable; eassumption]
      | first [reflexivity | apply filter_serializable; assumption] ].
Qed.

(** Whatever [json_loads] returns can be printed back. *)
Lemma json_loads_serializable (s : string) (v : PyVal) :
  json_loads s = Return v -> serializable v = true.
Proof.
  unfold json_loads.
  destruct (scan_once _ _) as [[x rest]|] eqn:Hscan; [|discriminate].
  destruct (skip_ws rest); [|discriminate].
  intros H; inversion H; subst.
  eapply (proj1 (scan_serializable _)); eassumption.
Qed.

(** The characters [str.strip()] removes, one by one. *)
Lemma isspace_cases (cp : N) :
  isspace cp = true ->
  In cp [9; 10; 11; 12; 13; 28; 29; 30; 31; 32; 133; 160; 5760;
         8192; 8193; 8194; 8195; 8196; 8197; 8198; 8199; 8200; 8201; 8202;
         8232; 8233; 8239; 8287; 12288]%N.
Proof.
  unfold isspace. intros H.
  repeat (apply orb_prop in H; destruct H as [H|H]);
    try (apply andb_prop in H; destruct H as [Hlo Hhi];
         apply N.leb_le in Hlo; apply N.leb_le in Hhi);
    try (apply N.eqb_eq in H);
    simpl; lia.
Qed.

(** Whatever its length in bytes, a space at the head of a text is
    dropped, and so is one at its end. *)
Lemma lstrip_space (cp : N) (cs : list ascii) :
  isspace cp = true -> lstrip (utf8 cp ++ cs) = lstrip cs.
Proof.
  intros H. apply isspace_cases in H.
  repeat (destruct H as [<-|H]; [reflexivity|]).
  destruct H.
Qed.

Lemma rstrip_space (cp : N) (cs : list ascii) :
  isspace cp = true -> rstrip (cs ++ utf8 cp) = rstrip cs.
Proof.
  intros H. unfold rstrip. rewrite rev_app_distr. f_equal.
  apply isspace_cases in H.
  repeat (destruct H as [<-|H]; [reflexivity|]).
  destruct H.
Qed.

Lemma lstrip_spaces (cps : list N) (cs : list ascii) :
  forallb isspace cps = true -> lstrip (flat_map utf8 cps ++ cs) = lstrip cs.
Proof.
  induction cps as [|cp cps IH]; intros H; [reflexivity|].
  simpl in H. apply andb_prop in H. destruct H as [Hcp Hcps].
  simpl. rewrite <- app_assoc, (lstrip_space _ _ Hcp). exact (IH Hcps).
Qed.

Lemma rstrip_spaces (cps : list N) (cs : list ascii) :
  forallb isspace cps = true -> rstrip (cs ++ flat_map utf8 cps) = rstrip cs.
Proof.
  revert cs. induction cps as [|cp cps IH]; intros cs H; simpl.
  - now rewrite app_nil_r.
  - simpl in H. apply andb_prop in H. destruct H as [Hcp Hcps].
    rewrite app_assoc, (IH _ Hcps). exact (rstrip_space _ _ Hcp).
Qed.

Lemma list_ascii_of_string_app (s t : string) :
  list_ascii_of_string (s ++ t) = (list_ascii_of_string s ++ list_ascii_of_string t)%list.
Proof. induction s as [|c s IH]; simpl; [reflexivity|now rewrite IH]. Qed.

(** [strip] ignores the spaces a text starts with, those beyond ASCII
    included, and a text of spaces alone strips to the empty string. *)
Lemma strip_leading_spaces (cps : list N) (s : string) :
  forallb isspace cps = true -> strip (encode cps ++ s) = strip s.
Proof.
  intros H. unfold strip, encode.
  rewrite list_ascii_of_string_app, list_ascii_of_string_of_list_ascii.
  now rewrite (lstrip_spaces _ _ H).
Qed.

Lemma strip_spaces (cps : list N) :
  forallb isspace cps = true -> strip (encode cps) = ""%string.
Proof.
  intros H. unfold strip, encode.
  rewrite list_ascii_of_string_of_list_ascii.
  rewrite <- (app_nil_r (flat_map utf8 cps)), (lstrip_spaces _ _ H).
  reflexivity.
Qed.

Lemma encode_not_empty (cp : N) (cps : list N) (s : string) :
  (encode (cp :: cps) ++ s)%string <> ""%string.
Proof.
  unfold encode, utf8. simpl.
  repeat match goal with |- context [if ?b then _ else _] => destruct b end;
    discriminate.
Qed.

End ParserFacts.

(* ================================================================== *)
(** * Properties of the stdio loop *)
(* ================================================================== *)

Section StdioClaims.
Import Py Effects Client Stdio Spec.

Variable loads : string -> Outcome PyVal.
Variable client : option OpenProjectClient.

Lemma rpc_error_serializable (id : PyVal) (code : Z) (msg : string) :
  serializable id = true -> serializable (rpc_error id code msg) = true.
Proof. intros H; simpl; rewrite H; reflexivity. Qed.

Lemma dict_get_serializable (d : Dict) (k : string) :
  all_serializable d = true -> serializable (dict_get d k) = true.
Proof.
  intros Hd. unfold dict_get.
  destruct (lookup k d) eqn:Hl; [eapply lookup_serializable; eassumption|reflexivity].
Qed.

Lemma dict_get_or_serializable (d : Dict) (k : string) (default : PyVal) :
  all_serializable d = true -> serializable default = true ->
  serializable (dict_get_or d k default) = true.
Proof.
  intros Hd Hdef. unfold dict_get_or.
  destruct (lookup k d) eqn:Hl; [eapply lookup_serializable; eassumption|exact Hdef].
Qed.

Lemma on_line_exception_serializable (request_id : Locals) (e : Exn) :
  printable request_id -> serializable (on_line_exception request_id e) = true.
Proof.
  intros Hp. unfold on_line_exception.
  destruct (isinstance e CJSONDecodeError); [reflexivity|].
  apply rpc_error_serializable. destruct request_id; [exact Hp|reflexivity].
Qed.

Hypothesis loads_serializable : forall s v, loads s = Return v -> serializable v = true.

(** Each pass through the inner [try] statement writes one response, and
    the binding of [request_id] it leaves can be printed. *)
Lemma handle_line_writes (request_id : Locals) (line : string) (w : World) :
  printable request_id ->
  exists response request_id' w',
    handle_line loads client request_id line w = ((Wrote response, request_id'), w') /\
    printable request_id'.
Proof.
  intros Hp. unfold handle_line, try_block.
  destruct (loads line) as [request_data|e] eqn:Hl.
  - pose proof (loads_serializable _ _ Hl) as Hs.
    destruct request_data as [| | | | | |entries|];
      try (unfold print_json;
           rewrite (on_line_exception_serializable request_id _ Hp);
           do 3 eexists; split; [reflexivity|exact Hp]).
    change (all_serializable entries = true) in Hs.
    destruct (negb (eq_str (dict_get entries "jsonrpc") "2.0")).
    + unfold print_json at 1.
      rewrite rpc_error_serializable
        by (apply dict_get_or_serializable; [exact Hs|reflexivity]).
      do 3 eexists; split; [reflexivity|exact Hp].
    + assert (Hid : printable (Some (dict_get entries "id")))
        by (apply dict_get_serializable; exact Hs).
      destruct (build_response client _ _ _ w) as [[response|e] w'].
      * unfold print_json at 1. destruct (serializable response).
        -- do 3 eexists; split; [reflexivity|exact Hid].
        -- unfold print_json.
           rewrite (on_line_exception_serializable _ _ Hid).
           do 3 eexists; split; [reflexivity|exact Hid].
      * unfold print_json.
        rewrite (on_line_exception_serializable _ _ Hid).
        do 3 eexists; split; [reflexivity|exact Hid].
  - unfold print_json.
    rewrite (on_line_exception_serializable request_id _ Hp).
    do 3 eexists; split; [reflexivity|exact Hp].
Qed.

(** The loop writes one response for every line it does not skip. *)
Lemma read_loop_count (lines : list string) (request_id : Locals) (w : World) :
  printable request_id ->
  Forall (fun line => line <> "") lines ->
  List.length (fst (read_loop loads client request_id lines w)) =
  List.length (filter non_blank lines).
Proof.
  revert request_id w.
  induction lines as [|line rest IH]; intros request_id w Hp Hne; [reflexivity|].
  inversion Hne as [|? ? Hline Hrest]; subst.
  simpl. destruct (String.eqb_spec line ""); [contradiction|].
  unfold non_blank at 1.
  destruct (String.eqb (Json.strip line) "") eqn:Hblank; simpl.
  - apply IH; assumption.
  - destruct (handle_line_writes request_id (Json.strip line) w Hp)
      as (response & request_id' & w' & -> & Hp').
    specialize (IH request_id' w' Hp' Hrest).
    destruct (read_loop loads client request_id' rest w') as [more w''].
    simpl in *. now rewrite IH.
Qed.

(** A line of spaces alone, whatever the spaces, is skipped; spaces in
    front of a line change nothing to what the loop does with it. *)
Lemma space_line_skipped (cp : N) (cps : list N) (request_id : Locals)
    (rest : list string) (w : World) :
  forallb Json.isspace (cp :: cps) = true ->
  read_loop loads client request_id (Json.encode (cp :: cps) :: rest) w =
  read_loop loads client request_id rest w.
Proof.
  intros H. cbn [read_loop].
  pose proof (encode_not_empty cp cps "") as Hne.
  replace (Json.encode (cp :: cps) ++ "") with (Json.encode (cp :: cps)) in Hne
    by (generalize (Json.encode (cp :: cps)); intros s;
        induction s as [|c s IH]; simpl; [reflexivity|now rewrite <- IH]).
  destruct (String.eqb_spec (Json.encode (cp :: cps)) ""); [contradiction|].
  now rewrite (strip_spaces _ H).
Qed.

Lemma leading_spaces_ignored (cps : list N) (request_id : Locals) (line : string)
    (rest : list string) (w : World) :
  forallb Json.isspace cps = true ->
  line <> "" ->
  read_loop loads client request_id ((Json.encode cps ++ line) :: rest) w =
  read_loop loads client request_id (line :: rest) w.
Proof.
  intros H Hline. cbn [read_loop].
  destruct (String.eqb_spec line ""); [contradiction|].
  rewrite (strip_leading_spaces _ _ H).
  destruct (String.eqb_spec (Json.encode cps ++ line) "") as [Heq|_]; [|reflexivity].
  exfalso. destruct cps as [|cp cps].
  - apply Hline. exact Heq.
  - exact (encode_not_empty cp cps line Heq).
Qed.

(** C4 (amended).  A line that is not empty once stripped and that
    [json.loads] refuses makes the loop write exactly one response, the
    error with code -32700 and [id] null, change nothing else, and go on
    with the lines that follow.  A line that is empty once stripped is
    skipped without any response. *)
Theorem parse_error_response (request_id : Locals) (line : string)
    (rest : list string) (w : World) :
  line <> "" ->
  (non_blank line = true ->
   forall e,
     loads (Json.strip line) = Raise e -> isinstance e CJSONDecodeError = true ->
     let response := rpc_error PyNone (-32700) ("Parse error: " ++ exn_str e) in
     error_code_of response = Some (PyInt (-32700)) /\
     id_of response = Some PyNone /\
     read_loop loads client request_id (line :: rest) w =
       (response :: fst (read_loop loads client request_id rest w),
        snd (read_loop loads client request_id rest w))) /\
  (non_blank line = false ->
   read_loop loads client request_id (line :: rest) w =
   read_loop loads client request_id rest w).
Proof.
  intros Hline. unfold non_blank.
  split; intros Hblank.
  - intros e Hl He.
    split; [reflexivity|split; [reflexivity|]].
    cbn [read_loop].
    destruct (String.eqb_spec line ""); [contradiction|].
    destruct (String.eqb (Json.strip line) ""); [discriminate|].
    unfold handle_line, try_block. rewrite Hl.
    unfold on_line_exception. rewrite He.
    cbn [print_json serializable rpc_error forallb snd andb].
    destruct (read_loop loads client request_id rest w); reflexivity.
  - cbn [read_loop].
    destruct (String.eqb_spec line ""); [contradiction|].
    destruct (String.eqb (Json.strip line) ""); [reflexivity|discriminate].
Qed.

(** C5 (amended).  Every line the loop does not skip, that is every
    envelope it processes, is answered by exactly one response on
    stdout, whether or not it carries an [id].  A notification without
    [id] is answered too: the response has [id] null and [result]
    null. *)
Theorem one_response_per_envelope (lines : list string) (w : World) :
  Forall (fun line => line <> "") lines ->
  List.length (fst (handle_stdio_mode loads client lines w)) =
    List.length (filter non_blank lines) /\
  (forall request_id line d method w',
     loads line = Return (PyDict d) ->
     eq_str (dict_get d "jsonrpc") "2.0" = true ->
     lookup "id" d = None ->
     dict_get d "method" = PyStr method ->
     In method notification_methods ->
     handle_line loads client request_id line w' =
       ((Wrote (rpc_result PyNone PyNone), Some PyNone), w')).
Proof.
  intros Hne. split.
  - apply read_loop_count; [exact I|exact Hne].
  - intros request_id line d method w' Hl Hj Hid Hm Hin.
    unfold handle_line, try_block. rewrite Hl, Hj. cbn [negb].
    assert (Hi : dict_get d "id" = PyNone) by (unfold dict_get; now rewrite Hid).
    rewrite Hi, Hm.
    destruct Hin as [<-|[<-|[<-|[]]]]; reflexivity.
Qed.

End StdioClaims.

Section StdioRuns.
Import Py Effects Client Stdio Spec Scenario.

(** C4 (counterexample).  A line of blanks is not JSON, and the loop
    answers it with nothing. *)
Lemma blank_line_no_response :
  (exists m, Json.json_loads ("   " ++ nl) = Raise (JSONDecodeError m)) /\
  handle_stdio_mode Json.json_loads None ["   " ++ nl] (world healthy)
  = ([], world healthy).
Proof. split; [eexists|]; reflexivity. Qed.

Lemma parse_error_response_witness :
  handle_stdio_mode Json.json_loads None ["{not json" ++ nl] (world healthy)
  = ([rpc_error PyNone (-32700) "Parse error: Expecting value"], world healthy).
Proof.
  destruct (parse_error_response Json.json_loads None None ("{not json" ++ nl) []
              (world healthy)) as [Hbad _]; [discriminate|].
  destruct (Hbad eq_refl (JSONDecodeError "Expecting value") eq_refl eq_refl)
    as (_ & _ & Hloop).
  exact Hloop.
Defined.

(** Spaces beyond ASCII are spaces to the loop: a line that holds a
    no-break space alone gets no response, and a request between such
    spaces is answered like the request alone. *)
Example spaces_beyond_ascii :
  handle_stdio_mode Json.json_loads None [no_break_space_line] (world healthy)
    = ([], world healthy) /\
  handle_stdio_mode Json.json_loads None [indented_tools_list_line] (world healthy)
    = handle_stdio_mode Json.json_loads None [tools_list_line] (world healthy).
Proof. split; reflexivity. Qed.

(** C5 (counterexample).  The notification [initialized], sent without
    [id], is answered by one response. *)
Lemma notification_answered :
  Json.json_loads initialized_line
    = Return (PyDict [("jsonrpc", PyStr "2.0"); ("method", PyStr "initialized")]) /\
  handle_stdio_mode Json.json_loads None [initialized_line] (world healthy)
    = ([rpc_result PyNone PyNone], world healthy).
Proof. split; reflexivity. Qed.

Lemma one_response_per_envelope_witness :
  let lines := [indented_tools_list_line; nl; no_break_space_line; initialized_line] in
  List.length (fst (handle_stdio_mode Json.json_loads None lines (world healthy))) = 2.
Proof.
  intros lines.
  destruct (one_response_per_envelope Json.json_loads None json_loads_serializable
              lines (world healthy)) as [Hcount _].
  - repeat constructor; discriminate.
  - exact Hcount.
Defined.

End StdioRuns.

(* ================================================================== *)
(** * Properties of the connection ceiling *)
(* ================================================================== *)

Section PoolClaims.
Import Pool Spec.

Lemma count_update (p : Task -> bool) (ts : list Task) (i : nat) (t t' : Task) :
  nth_error ts i = Some t ->
  List.length (filter p (update i t' ts)) + (if p t then 1 else 0) =
  List.length (filter p ts) + (if p t' then 1 else 0).
Proof.
  revert i. induction ts as [|x rest IH]; intros [|j] H; simpl in H; try discriminate.
  - inversion H; subst. simpl. destruct (p t), (p t'); simpl; lia.
  - simpl. specialize (IH j H). destruct (p x); simpl; lia.
Qed.

(** The semaphore counts the free slots: its value and the number of
    tasks that hold a slot always add up to the same number. *)
Lemma step_conserves (i : nat) (l l' : Loop) :
  step i l = Some l' -> _semaphore l' + held l' = _semaphore l + held l.
Proof.
  unfold step, held.
  destruct (nth_error (tasks l) i) as [[p s]|] eqn:Hn; [|discriminate].
  destruct p, s; simpl; try discriminate.
  - intros H; inversion H; subst; simpl.
    pose proof (count_update holding _ _ _ (mkTask Direct InFlight) Hn) as Hc.
    simpl in Hc. lia.
  - intros H; inversion H; subst; simpl.
    pose proof (count_update holding _ _ _ (mkTask Direct Finished) Hn) as Hc.
    simpl in Hc. lia.
  - destruct (_semaphore l) as [|v] eqn:Hs; [discriminate|].
    intros H; inversion H; subst; simpl.
    pose proof (count_update holding _ _ _ (mkTask Guarded InFlight) Hn) as Hc.
    simpl in Hc. lia.
  - intros H; inversion H; subst; simpl.
    pose proof (count_update holding _ _ _ (mkTask Guarded Finished) Hn) as Hc.
    simpl in Hc. lia.
Qed.

Lemma run_conserves (schedule : list nat) (l : Loop) :
  _semaphore (run schedule l) + held (run schedule l) = _semaphore l + held l.
Proof.
  revert l. induction schedule as [|i rest IH]; intros l; simpl; [reflexivity|].
  rewrite IH. destruct (step i l) as [l'|] eqn:Hs; [|reflexivity].
  exact (step_conserves i l l' Hs).
Qed.

Lemma held_init (n : nat) (paths : list Path) : held (HTTPClientManager_init n paths) = 0.
Proof.
  unfold held, HTTPClientManager_init; simpl.
  induction paths as [|p rest IH]; simpl; [reflexivity|].
  destruct p; exact IH.
Qed.

(** Requests sent under [request_context] respect the ceiling: under
    every schedule, at most [max_connections] tasks hold a slot. *)
Lemma request_context_bounds (max_connections : nat) (paths : list Path)
    (schedule : list nat) :
  held (run schedule (HTTPClientManager_init max_connections paths)) <= max_connections.
Proof.
  pose proof (run_conserves schedule (HTTPClientManager_init max_connections paths)) as H.
  rewrite held_init in H. simpl in H. lia.
Qed.

Lemma update_middle (k : nat) (a b x : Task) (rest : list Task) :
  update k x (repeat a k ++ b :: rest) = (repeat a k ++ x :: rest)%list.
Proof. induction k as [|k IH]; simpl; [reflexivity|now rewrite IH]. Qed.

Lemma nth_error_middle (k : nat) (a b : Task) (rest : list Task) :
  nth_error (repeat a k ++ b :: rest) k = Some b.
Proof. induction k as [|k IH]; simpl; [reflexivity|exact IH]. Qed.

Lemma repeat_snoc (a : Task) (k : nat) : (repeat a k ++ [a])%list = repeat a (S k).
Proof. induction k as [|k IH]; simpl; [reflexivity|now rewrite IH]. Qed.

(** Resuming the direct tasks [k], [k+1], ... one after the other puts
    each of them in flight; none has to wait. *)
Lemma run_direct (m k r sem : nat) :
  run (seq k m)
      (mkLoop sem (repeat (mkTask Direct InFlight) k
                   ++ repeat (mkTask Direct Pending) (m + r)))
  = mkLoop sem (repeat (mkTask Direct InFlight) (k + m)
                ++ repeat (mkTask Direct Pending) r).
Proof.
  revert k. induction m as [|m IH]; intros k; simpl.
  - now rewrite Nat.add_0_r.
  - unfold step; simpl. rewrite nth_error_middle. simpl.
    rewrite update_middle.
    change (repeat (mkTask Direct InFlight) k
            ++ mkTask Direct InFlight :: repeat (mkTask Direct Pending) (m + r))%list
      with (repeat (mkTask Direct InFlight) k
            ++ [mkTask Direct InFlight] ++ repeat (mkTask Direct Pending) (m + r))%list.
    rewrite app_assoc, repeat_snoc, IH.
    now replace (S k + m) with (k + S m) by lia.
Qed.

Lemma in_flight_all (sem n : nat) :
  in_flight (mkLoop sem (repeat (mkTask Direct InFlight) n)) = n.
Proof.
  unfold in_flight; simpl.
  induction n as [|n IH]; simpl; [reflexivity|now rewrite IH].
Qed.

(** C8 (evaluation of the code where the claim fails).  [get_project]
    awaits the API call without entering [request_context], so the
    semaphore is never taken: with a ceiling of [N], [N + 5] calls of
    [get_project] started together are all in flight at once, and the
    semaphore still shows [N] free slots. *)
Theorem direct_requests_exceed_ceiling (N : nat) :
  let l := run (seq 0 (N + 5)) (HTTPClientManager_init N (repeat Direct (N + 5))) in
  in_flight l = N + 5 /\ _semaphore l = N.
Proof.
  unfold HTTPClientManager_init. rewrite map_repeat.
  generalize (N + 5); intros m.
  pose proof (run_direct m 0 0 N) as Hrun.
  cbn [repeat app Nat.add] in Hrun.
  rewrite Nat.add_0_r, app_nil_r in Hrun.
  cbv zeta. rewrite Hrun.
  split; [apply in_flight_all|reflexivity].
Qed.

(** With the default ceiling of 10, fifteen calls. *)
Example fifteen_in_flight :
  in_flight (run (seq 0 15) (HTTPClientManager_init 10 (repeat Direct 15))) = 15.
Proof. reflexivity. Qed.

(** The same fifteen calls sent under [request_context]: ten go out,
    five wait. *)
Example fifteen_guarded :
  in_flight (run (seq 0 15) (HTTPClientManager_init 10 (repeat Guarded 15))) = 10.
Proof. reflexivity. Qed.

End PoolClaims.

(* ================================================================== *)
(** * Further properties of the backend client *)
(* ================================================================== *)

Section ClientExtras.
Import Py Effects Client Spec Vocabulary.

(** X1.  Whatever [get_project] or [get_work_packages] raises is a
    [TypeError] or a plain [OpenProjectClientError] without [error]
    attached; the specialised classes (authentication, connection, rate
    limit) never leave them.  A backend answer that is an HTTP error of
    any status comes out as [TypeError]. *)
Theorem client_errors_collapse (pid filters : PyVal) (w : World) :
  (forall e, fst (get_project pid w) = Raise e -> surfaced e) /\
  (forall e, fst (get_work_packages pid filters w) = Raise e -> surfaced e) /\
  (forall status text,
     backend w (trace w ++ [EvCall (OpGetProject pid)])%list (ReqGetProject pid)
       = Raise (ApiException status text) ->
     exists m, fst (get_project pid w) = Raise (TypeError m)).
Proof.
  split; [|split].
  - rewrite get_project_once. unfold get_project_attempt.
    exact (proj1 (proj2 (attempt_outcome _ _ _ _ _))).
  - rewrite get_work_packages_once. unfold get_work_packages_attempt.
    exact (proj1 (proj2 (attempt_outcome _ _ _ _ _))).
  - intros status text Hb. rewrite get_project_once.
    unfold get_project_attempt, try_except, Effects.bind, send.
    cbn [after trace backend api_key]. rewrite Hb.
    unfold except_clauses, on_api_exception.
    destruct (status =? 401)%Z; [|destruct (status =? 404)%Z];
      eexists; reflexivity.
Qed.

Lemma client_errors_collapse_witness :
  exists m,
    fst (get_project (PyInt 1) (Scenario.world (Scenario.refusing 401)))
    = Raise (TypeError m).
Proof.
  apply (proj2 (proj2 (client_errors_collapse (PyInt 1) PyNone
                         (Scenario.world (Scenario.refusing 401)))) 401%Z "HTTP error").
  reflexivity.
Defined.

(** X2.  [get_work_packages] sends exactly one request.  It carries the
    default filter (status id not empty) when [filters] is [None], and
    the caller's filters as they are otherwise, an empty list
    included. *)
Theorem default_filters_sent (pid filters : PyVal) (w : World) :
  trace (snd (get_work_packages pid filters w)) =
  (trace w ++
   [EvCall (OpGetWorkPackages pid filters);
    EvRequest (ReqGetWorkPackages
                 (match filters with PyNone => default_filters | _ => filters end)
                 pid)])%list.
Proof.
  rewrite get_work_packages_once. unfold get_work_packages_attempt.
  rewrite (proj1 (attempt_outcome _ _ _ _ _)), after_after. reflexivity.
Qed.

(** X3.  The four response shapes the extraction knows hold the same
    list: an object with [_embedded.elements], an object with
    [elements], a dict with ["_embedded"]["elements"], and a bare list
    are all converted element by element in the same way. *)
Theorem work_package_shapes_agree (items : list PyVal) :
  (forall attrs e,
     lookup "_embedded" attrs = Some (PyObj e) ->
     lookup "elements" e = Some (PyList items) ->
     _extract_work_packages_data (PyObj attrs) = convert_work_packages items) /\
  (forall attrs,
     lookup "_embedded" attrs = None ->
     lookup "elements" attrs = Some (PyList items) ->
     _extract_work_packages_data (PyObj attrs) = convert_work_packages items) /\
  (forall d e,
     lookup "_embedded" d = Some (PyDict e) ->
     lookup "elements" e = Some (PyList items) ->
     _extract_work_packages_data (PyDict d) = convert_work_packages items) /\
  _extract_work_packages_data (PyList items) = convert_work_packages items.
Proof.
  unfold _extract_work_packages_data.
  split; [|split; [|split]].
  - intros attrs e Ha He. simpl. rewrite Ha. simpl. rewrite He. reflexivity.
  - intros attrs Ha He. simpl. rewrite Ha, He. reflexivity.
  - intros d e Hd He. simpl. unfold dict_get_or. rewrite Hd. simpl.
    unfold dict_get_or. rewrite He. reflexivity.
  - reflexivity.
Qed.

Lemma work_package_shapes_agree_witness :
  _extract_work_packages_data Scenario.two_packages =
  _extract_work_packages_data
    (PyList [PyObj [("id", PyInt 1); ("subject", PyStr "Design")];
             PyObj [("id", PyInt 2); ("subject", PyStr "Build")]]).
Proof.
  destruct (work_package_shapes_agree
              [PyObj [("id", PyInt 1); ("subject", PyStr "Design")];
               PyObj [("id", PyInt 2); ("subject", PyStr "Build")]])
    as (Hobj & _ & _ & Hlist).
  rewrite Hlist.
  apply (Hobj _ [("elements",
                  PyList [PyObj [("id", PyInt 1); ("subject", PyStr "Design")];
                          PyObj [("id", PyInt 2); ("subject", PyStr "Build")]])]);
    reflexivity.
Defined.

(** X4.  A response of a shape the extraction does not know is taken for
    an empty list, not for an error: a value that is neither object,
    dict nor list, an object with neither [_embedded] nor [elements],
    and a dict without ["_embedded"] all give no work packages, and
    [get_work_packages] then returns the empty list as a success. *)
Theorem unknown_shape_is_empty :
  (forall r, has_dunder_dict r = false -> is_dict r = false -> is_list r = false ->
     _extract_work_packages_data r = Return []) /\
  (forall attrs, lookup "_embedded" attrs = None -> lookup "elements" attrs = None ->
     _extract_work_packages_data (PyObj attrs) = Return []) /\
  (forall d, lookup "_embedded" d = None ->
     _extract_work_packages_data (PyDict d) = Return []) /\
  (forall pid filters w r,
     backend w (trace w ++ [EvCall (OpGetWorkPackages pid filters)])%list
       (ReqGetWorkPackages
          (match filters with PyNone => default_filters | _ => filters end) pid)
       = Return r ->
     has_dunder_dict r = false -> is_dict r = false -> is_list r = false ->
     fst (get_work_packages pid filters w) = Return []).
Proof.
  assert (Hscalar : forall r, has_dunder_dict r = false -> is_dict r = false ->
                      is_list r = false -> _extract_work_packages_data r = Return []).
  { intros r Ho Hd Hl. destruct r; try discriminate; reflexivity. }
  split; [exact Hscalar|split; [|split]].
  - intros attrs Ha He. unfold _extract_work_packages_data. simpl.
    rewrite Ha, He. reflexivity.
  - intros d Hd. unfold _extract_work_packages_data. simpl.
    unfold dict_get_or. rewrite Hd. reflexivity.
  - intros pid filters w r Hb Ho Hd Hl.
    rewrite get_work_packages_once.
    unfold get_work_packages_attempt, try_except, Effects.bind, send, lift, ret.
    cbn [after trace backend api_key]. rewrite Hb, (Hscalar r Ho Hd Hl).
    reflexivity.
Qed.

Lemma unknown_shape_is_empty_witness :
  fst (get_work_packages (PyInt 42) PyNone
         (Scenario.world (fun _ _ => Return (PyStr "<html>maintenance</html>"))))
  = Return [].
Proof.
  apply (proj2 (proj2 (proj2 unknown_shape_is_empty))
           (PyInt 42) PyNone _ (PyStr "<html>maintenance</html>"));
    reflexivity.
Defined.

Lemma convert_work_package_return (x : PyVal) (out : list WorkPackageInfo) :
  convert_work_package x = Return out ->
  (convertible x = true /\ exists info, out = [info]) \/
  (convertible x = false /\ out = []).
Proof.
  unfold convert_work_package, convertible.
  destruct (has_dunder_dict x) eqn:Ho.
  - intros H. apply obind_return in H. destruct H as (info & _ & H).
    inversion H; subst. left; split; [reflexivity|eauto].
  - destruct x; simpl; intros H; try (inversion H; subst; right; split; reflexivity).
    apply obind_return in H. destruct H as (info & _ & H).
    inversion H; subst. left; split; [reflexivity|eauto].
Qed.

(** X5.  The work packages of a list come out in the order of the
    response, one for each element that is an object or a dict; elements
    of any other kind are left out without error. *)
Theorem work_packages_keep_order (items : list PyVal) (infos : list WorkPackageInfo) :
  _extract_work_packages_data (PyList items) = Return infos ->
  Forall2 (fun item info => convert_work_package item = Return [info])
          (filter convertible items) infos.
Proof.
  change (_extract_work_packages_data (PyList items)) with (convert_work_packages items).
  revert infos. induction items as [|x rest IH]; intros infos H; simpl in H.
  - inversion H; subst. constructor.
  - apply obind_return in H. destruct H as (first & Hfirst & H).
    apply obind_return in H. destruct H as (more & Hmore & H).
    inversion H; subst. simpl.
    destruct (convert_work_package_return x first Hfirst)
      as [[-> (info & ->)]|[-> ->]]; simpl.
    + constructor; [exact Hfirst|exact (IH more Hmore)].
    + exact (IH more Hmore).
Qed.

Lemma work_packages_keep_order_witness :
  Forall2 (fun item info => convert_work_package item = Return [info])
    [PyObj [("subject", PyStr "first")]; PyDict [("subject", PyStr "second")]]
    [mkWorkPackageInfo None "first" (Some []) None None None None None None;
     mkWorkPackageInfo None "second" None None None None None None None].
Proof.
  apply (work_packages_keep_order
           [PyObj [("subject", PyStr "first")]; PyInt 7;
            PyDict [("subject", PyStr "second")]]).
  reflexivity.
Defined.

Lemma optional_to_str_return (f : string) (kw : Dict) (o : option string) :
  optional f to_str kw = Return o ->
  match lookup f kw with
  | Some (PyStr s) => o = Some s
  | Some PyNone | None => o = None
  | Some _ => False
  end.
Proof.
  unfold optional. destruct (lookup f kw) as [v|]; [|intros H; inversion H; reflexivity].
  destruct v; simpl; intros H; inversion H; reflexivity.
Qed.

(** The three nested references of a work package, as the constructor
    received them. *)
Lemma WorkPackageInfo_new_references (kw : Dict) (info : WorkPackageInfo) :
  WorkPackageInfo_new kw = Return info ->
  optional "status" to_str kw = Return (wp_status info) /\
  optional "priority" to_str kw = Return (wp_priority info) /\
  optional "assignee" to_str kw = Return (wp_assignee info).
Proof.
  unfold WorkPackageInfo_new; intros H.
  apply obind_return in H; destruct H as (i & _ & H).
  apply obind_return in H; destruct H as (s & _ & H).
  apply obind_return in H; destruct H as (d & _ & H).
  apply obind_return in H; destruct H as (st & Hst & H).
  apply obind_return in H; destruct H as (pr & Hpr & H).
  apply obind_return in H; destruct H as (a & Ha & H).
  repeat (apply obind_return in H; destruct H as (? & _ & H)).
  inversion H; subst; simpl. auto.
Qed.

(** X6.  In a work package read from an object, [status], [priority]
    and [assignee] are the [name] of the nested object when that is a
    string, and absent when the nested value is missing, is not an
    object, or has no [name]; no other value of [name] is let
    through. *)
Theorem nested_references_resolve (attrs : Dict) (info : WorkPackageInfo) :
  convert_work_package (PyObj attrs) = Return [info] ->
  forall field got,
    In (field, got)
       [("status", wp_status info); ("priority", wp_priority info);
        ("assignee", wp_assignee info)] ->
    match display_name attrs field with
    | PyStr s => got = Some s
    | PyNone => got = None
    | _ => False
    end.
Proof.
  unfold convert_work_package; cbn [has_dunder_dict].
  intros H. apply obind_return in H. destruct H as (info' & Hnew & H).
  inversion H; subst info'.
  apply WorkPackageInfo_new_references in Hnew.
  destruct Hnew as (Hst & Hpr & Ha).
  apply optional_to_str_return in Hst, Hpr, Ha. simpl in Hst, Hpr, Ha.
  intros field got [Hin|[Hin|[Hin|[]]]]; inversion Hin; subst; assumption.
Qed.

Lemma nested_references_resolve_witness :
  exists info,
    convert_work_package
      (PyObj [("subject", PyStr "Design");
              ("status", PyObj [("name", PyStr "Open")]);
              ("priority", PyDict [("name", PyStr "High")])]) = Return [info] /\
    wp_status info = Some "Open" /\ wp_priority info = None /\ wp_assignee info = None.
Proof.
  eexists. split; [reflexivity|].
  pose proof (nested_references_resolve
                [("subject", PyStr "Design");
                 ("status", PyObj [("name", PyStr "Open")]);
                 ("priority", PyDict [("name", PyStr "High")])] _ eq_refl) as H.
  split; [|split].
  - exact (H "status" _ (or_introl eq_refl)).
  - exact (H "priority" _ (or_intror (or_introl eq_refl))).
  - exact (H "assignee" _ (or_intror (or_intror (or_introl eq_refl)))).
Defined.

(** X7.  A project response that is neither an object nor a dict (a
    list, a string, a number, null) cannot be mapped: the extraction
    raises [AttributeError], and [get_project] fails with a plain
    [OpenProjectClientError]. *)
Theorem unknown_project_shape_fails (r : PyVal) :
  has_dunder_dict r = false -> is_dict r = false ->
  (exists m, _extract_project_data r = Raise (AttributeError m)) /\
  (forall pid w,
     backend w (trace w ++ [EvCall (OpGetProject pid)])%list (ReqGetProject pid)
       = Return r ->
     exists m, fst (get_project pid w) = Raise (OpenProjectClientError m None)).
Proof.
  intros Ho Hd.
  assert (Hx : exists m, _extract_project_data r = Raise (AttributeError m))
    by (destruct r; try discriminate; eexists; reflexivity).
  split; [exact Hx|].
  intros pid w Hb. destruct Hx as [m Hx].
  rewrite get_project_once.
  unfold get_project_attempt, try_except, Effects.bind, send, lift, ret.
  cbn [after trace backend api_key]. rewrite Hb, Hx.
  eexists. reflexivity.
Qed.

Lemma unknown_project_shape_fails_witness :
  exists m,
    fst (get_project (PyInt 42) (Scenario.world (fun _ _ => Return (PyList []))))
    = Raise (OpenProjectClientError m None).
Proof.
  apply (proj2 (unknown_project_shape_fails (PyList []) eq_refl eq_refl)
           (PyInt 42) (Scenario.world (fun _ _ => Return (PyList [])))).
  reflexivity.
Defined.



End ClientExtras.

(* ================================================================== *)
(** * Further properties of the MCP core *)
(* ================================================================== *)

Section CoreExtras.
Import Py Effects Client Core CoreLifecycle Spec.

(** X9.  A tool name other than the three known ones is answered with
    the invalid-arguments result naming the tool; the backend is not
    contacted. *)
Theorem unknown_tool_rejected (self : MCPCore) (c : OpenProjectClient)
    (name : string) (arguments : Dict) (w : World) :
  client self = Some c ->
  ~ In name ["get_project"; "get_work_packages"; "get_weekly_report"] ->
  _call_tool self name arguments w =
  ((mkCallToolResult
      (PyDict [("error", PyStr ("Invalid arguments: Unknown tool: " ++ name))]),
    self), w).
Proof.
  intros Hc Hname.
  unfold _call_tool, ensure_client. rewrite Hc. unfold ret, dispatch_tool.
  destruct (String.eqb_spec name "get_project") as [->|_];
    [exfalso; apply Hname; simpl; auto|].
  destruct (String.eqb_spec name "get_work_packages") as [->|_];
    [exfalso; apply Hname; simpl; auto|].
  destruct (String.eqb_spec name "get_weekly_report") as [->|_];
    [exfalso; apply Hname; simpl; auto|].
  reflexivity.
Qed.

Lemma unknown_tool_rejected_witness :
  payload (fst (fst (_call_tool Scenario.core "delete_project" []
                       (Scenario.world Scenario.healthy))))
  = PyDict [("error", PyStr "Invalid arguments: Unknown tool: delete_project")].
Proof.
  rewrite (unknown_tool_rejected Scenario.core (mkClient "secret-key")
             "delete_project" [] (Scenario.world Scenario.healthy)).
  - reflexivity.
  - reflexivity.
  - intros [H|[H|[H|[]]]]; discriminate H.
Defined.

(** After a call made with an API key in the environment the core holds
    a client. *)
Lemma call_tool_leaves_client (self : MCPCore) (name : string) (arguments : Dict)
    (w : World) :
  api_key w <> "" ->
  exists c, client (snd (fst (_call_tool self name arguments w))) = Some c.
Proof.
  intros Hk. unfold _call_tool, ensure_client, _create_client,
    create_openproject_client, OpenProjectClient_init, Effects.bind, ret.
  destruct (client self) as [c|] eqn:Hc.
  - exists c.
    destruct (dispatch_tool self name arguments w) as [[r|e] w2]; exact Hc.
  - destruct (String.eqb_spec (api_key w) ""); [contradiction|].
    eexists.
    destruct (dispatch_tool _ name arguments w) as [[r|e] w2]; reflexivity.
Qed.

(** X10.  The client is created before the arguments are looked at.
    Without an API key in the environment every call, whatever the tool
    and the arguments, is answered with the result about the missing
    key, and the core still has no client.  The result is the one of the
    last [except] clause, [Unexpected error]: the error the client raises
    is its own [AuthenticationError], which the clause for API errors
    does not name.  With a key, the first call leaves a client on the
    core. *)
Theorem client_created_before_validation (self : MCPCore) (name : string)
    (arguments : Dict) (w : World) :
  client self = None ->
  (api_key w = "" ->
   _call_tool self name arguments w =
   ((mkCallToolResult
       (PyDict [("error",
                 PyStr "Unexpected error: OpenProject API key not configured. Please set OPENPROJECT_API_KEY environment variable.")]),
     self), w)) /\
  (api_key w <> "" ->
   client (snd (fst (_call_tool self name arguments w))) = Some (mkClient (api_key w))).
Proof.
  intros Hc. unfold _call_tool, ensure_client, _create_client,
    create_openproject_client, OpenProjectClient_init, Effects.bind, ret.
  rewrite Hc. split; intros Hk.
  - rewrite Hk. reflexivity.
  - destruct (String.eqb_spec (api_key w) ""); [contradiction|].
    destruct (dispatch_tool _ name arguments w) as [[r|e] w2]; reflexivity.
Qed.

Lemma client_created_before_validation_witness :
  let core := mkMCPCore (config Scenario.core) None in
  payload (fst (fst (_call_tool core "get_project" [("project_id", PyInt 0)]
                       (mkWorld "" Scenario.healthy []))))
  = PyDict [("error",
             PyStr "Unexpected error: OpenProject API key not configured. Please set OPENPROJECT_API_KEY environment variable.")].
Proof.
  intros core.
  rewrite (proj1 (client_created_before_validation core "get_project"
                    [("project_id", PyInt 0)] (mkWorld "" Scenario.healthy [])
                    eq_refl) eq_refl).
  reflexivity.
Defined.

(** X11.  A [project_id] that is false in Python (0, absent, null, the
    empty string, false) never reaches the client: the three tools of
    the core answer with the invalid-arguments result, the two handlers
    of the FastAPI server raise [ValidationError], and the world is left
    as it was. *)
Theorem falsy_project_id_stops_early (self : MCPCore) (c : OpenProjectClient)
    (arguments : Dict) (w : World) :
  client self = Some c ->
  truthy (dict_get arguments "project_id") = false ->
  (forall name,
     In name ["get_project"; "get_work_packages"; "get_weekly_report"] ->
     _call_tool self name arguments w =
     ((mkCallToolResult
         (PyDict [("error", PyStr "Invalid arguments: project_id is required")]),
       self), w)) /\
  Stdio.handle_fetch_weekly_report (PyDict arguments) (Some c) w
    = (Raise (ValidationError "project_id is required"), w) /\
  Stdio.handle_get_project_data (PyDict arguments) (Some c) w
    = (Raise (ValidationError "project_id is required"), w).
Proof.
  intros Hc Hf. split; [|split].
  - intros name Hname. exact (falsy_project_id_rejected self c name arguments w Hc Hname Hf).
  - unfold Stdio.handle_fetch_weekly_report, Effects.bind, lift, get_method.
    change (dict_get_or arguments "project_id" PyNone)
      with (dict_get arguments "project_id").
    rewrite Hf. reflexivity.
  - unfold Stdio.handle_get_project_data, Effects.bind, lift, get_method.
    change (dict_get_or arguments "project_id" PyNone)
      with (dict_get arguments "project_id").
    rewrite Hf. reflexivity.
Qed.

Lemma falsy_project_id_stops_early_witness :
  _call_tool Scenario.core "get_weekly_report" [("week", PyStr "2025-W41")]
    (Scenario.world Scenario.healthy)
  = ((mkCallToolResult
        (PyDict [("error", PyStr "Invalid arguments: project_id is required")]),
      Scenario.core), Scenario.world Scenario.healthy).
Proof.
  apply (proj1 (falsy_project_id_stops_early Scenario.core (mkClient "secret-key")
                  [("week", PyStr "2025-W41")] (Scenario.world Scenario.healthy)
                  eq_refl eq_refl)).
  simpl; auto.
Defined.





(** X13.  Once a tool call has been made with an API key configured,
    [cleanup] fails: the core holds a client, and the client has no
    method [cleanup].  The client stays on the core.  A core that never
    created a client is cleaned up without error. *)
Theorem cleanup_fails_after_a_call (self : MCPCore) (name : string)
    (arguments : Dict) (w : World) :
  (client self = None -> cleanup self w = (Return self, w)) /\
  (api_key w <> "" ->
   let after_call := _call_tool self name arguments w in
   exists m,
     cleanup (snd (fst after_call)) (snd after_call) =
     (Raise (AttributeError m), snd after_call)).
Proof.
  split.
  - intros Hc. unfold cleanup. rewrite Hc. reflexivity.
  - intros Hk after_call. subst after_call.
    destruct (call_tool_leaves_client self name arguments w Hk) as [c Hsome].
    unfold cleanup. rewrite Hsome.
    eexists. reflexivity.
Qed.

Lemma cleanup_fails_after_a_call_witness :
  let after_call := _call_tool (mkMCPCore (config Scenario.core) None) "get_project"
                      [("project_id", PyInt 42)] (Scenario.world Scenario.healthy) in
  exists m,
    fst (cleanup (snd (fst after_call)) (snd after_call)) = Raise (AttributeError m).
Proof.
  intros after_call.
  destruct (proj2 (cleanup_fails_after_a_call (mkMCPCore (config Scenario.core) None)
                     "get_project" [("project_id", PyInt 42)]
                     (Scenario.world Scenario.healthy))) as [m Hm].
  - discriminate.
  - exists m. subst after_call. now rewrite Hm.
Defined.

End CoreExtras.

(* ================================================================== *)
(** * Further properties of the stdio loop *)
(* ================================================================== *)

Section StdioExtras.
Import Py Effects Client Stdio Spec StdioVocabulary.

Variable loads : string -> Outcome PyVal.
Variable client : option OpenProjectClient.

Lemma print_json_serializable (x : PyVal) :
  serializable x = true -> print_json x = Return x.
Proof. intros H. unfold print_json. now rewrite H. Qed.

(** X14.  A line whose JSON is not an object (an array, a number, a
    string, null) is answered with the internal error -32603, and the
    [id] of that answer is the [id] of the last request that got as far
    as dispatch, or null if there was none: the loop's [request_id] is
    still bound from the earlier line. *)
Theorem non_object_request_gets_stale_id (request_id : Locals) (line : string)
    (v : PyVal) (w : World) :
  loads line = Return v ->
  is_dict v = false ->
  printable request_id ->
  exists response,
    handle_line loads client request_id line w = ((Wrote response, request_id), w) /\
    error_code_of response = Some (PyInt (-32603)) /\
    id_of response = Some (bound_id request_id).
Proof.
  intros Hl Hd Hp. unfold handle_line, try_block. rewrite Hl.
  assert (Hs : serializable (bound_id request_id) = true)
    by (destruct request_id; [exact Hp|reflexivity]).
  destruct v; try discriminate Hd;
    unfold on_line_exception; cbn [isinstance];
    rewrite print_json_serializable
      by (apply rpc_error_serializable; exact Hs);
    eexists; (split; [reflexivity|split; reflexivity]).
Qed.

(** X15.  An object whose [jsonrpc] member is not the string "2.0" is
    answered with -32600 under its own [id] (null when it has none);
    nothing is dispatched, the world and [request_id] stay as they
    were. *)
Theorem wrong_version_rejected (request_id : Locals) (line : string) (d : Dict)
    (w : World) :
  loads line = Return (PyDict d) ->
  all_serializable d = true ->
  eq_str (dict_get d "jsonrpc") "2.0" = false ->
  handle_line loads client request_id line w =
  ((Wrote (rpc_error (dict_get_or d "id" PyNone) (-32600)
             "Invalid Request: Must be JSON-RPC 2.0"),
    request_id), w).
Proof.
  intros Hl Hs Hj. unfold handle_line, try_block. rewrite Hl, Hj. cbn [negb].
  rewrite print_json_serializable; [reflexivity|].
  apply rpc_error_serializable, dict_get_or_serializable; [exact Hs|reflexivity].
Qed.

(** X16.  A well-versioned request whose method is none of the seven the
    loop knows (a missing method included) is answered with -32601
    under its [id], with the method named in the message; the world is
    unchanged. *)
Theorem unknown_method_rejected (request_id : Locals) (line : string) (d : Dict)
    (w : World) :
  loads line = Return (PyDict d) ->
  all_serializable d = true ->
  eq_str (dict_get d "jsonrpc") "2.0" = true ->
  existsb (eq_str (dict_get d "method")) known_methods = false ->
  handle_line loads client request_id line w =
  ((Wrote (rpc_error (dict_get d "id") (-32601)
             ("Method not found: " ++ py_str (dict_get d "method"))),
    Some (dict_get d "id")), w).
Proof.
  intros Hl Hs Hj Hm. unfold handle_line, try_block. rewrite Hl, Hj. cbn [negb].
  unfold build_response.
  cbn [existsb known_methods notification_methods] in Hm |- *.
  repeat (apply orb_false_elim in Hm; destruct Hm as [?H Hm]).
  repeat match goal with H : eq_str _ _ = false |- _ => rewrite H; clear H end.
  cbn [orb ret].
  rewrite print_json_serializable; [reflexivity|].
  apply rpc_error_serializable, dict_get_serializable; exact Hs.
Qed.

(** X17.  Only [tools/call] can reach the backend: a line that does not
    parse, that is not an object, or whose method is anything else
    leaves the world exactly as it was. *)
Theorem only_tool_calls_reach_backend (request_id : Locals) (line : string) (w : World) :
  (forall d, loads line = Return (PyDict d) ->
             eq_str (dict_get d "method") "tools/call" = false) ->
  snd (handle_line loads client request_id line w) = w.
Proof.
  intros Hm. unfold handle_line, try_block.
  destruct (loads line) as [v|e] eqn:Hl.
  - destruct v as [| | | | | |d|];
      try (destruct (print_json _); reflexivity).
    specialize (Hm d eq_refl).
    destruct (negb (eq_str (dict_get d "jsonrpc") "2.0")).
    + destruct (print_json _); [reflexivity|destruct (print_json _); reflexivity].
    + unfold build_response. rewrite Hm.
      repeat match goal with
             | |- context [if ?b then _ else _] => destruct b
             end;
        unfold ret;
        repeat match goal with
               | |- context [print_json ?x] => destruct (print_json x)
               end; reflexivity.
  - destruct (print_json _); reflexivity.
Qed.

(** X18.  A [tools/call] of one of the two tools with a [project_id]
    that is false in Python is answered with the internal error -32603
    carrying the text of the validation error, under the request's
    [id]; the backend is not contacted. *)
Theorem invalid_tool_arguments_are_internal_errors (request_id : Locals)
    (line : string) (d params arguments : Dict) (name : string) (w : World) :
  loads line = Return (PyDict d) ->
  all_serializable d = true ->
  eq_str (dict_get d "jsonrpc") "2.0" = true ->
  dict_get d "method" = PyStr "tools/call" ->
  dict_get_or d "params" (PyDict []) = PyDict params ->
  dict_get params "name" = PyStr name ->
  In name ["fetch_weekly_report"; "get_project_data"] ->
  dict_get_or params "arguments" (PyDict []) = PyDict arguments ->
  truthy (dict_get arguments "project_id") = false ->
  handle_line loads client request_id line w =
  ((Wrote (rpc_error (dict_get d "id") (-32603)
             "Internal error: project_id is required"),
    Some (dict_get d "id")), w).
Proof.
  intros Hl Hs Hj Hm Hp Hn Hin Ha Hf.
  unfold handle_line, try_block. rewrite Hl, Hj. cbn [negb].
  rewrite Hm, Hp. unfold build_response.
  cbn [eq_str String.eqb Ascii.eqb Bool.eqb].
  unfold Effects.bind at 1. unfold lift at 1. cbn [get_method].
  change (dict_get_or params "name" PyNone) with (dict_get params "name").
  rewrite Hn.
  unfold Effects.bind at 1. unfold lift at 1. cbn [get_method]. rewrite Ha.
  assert (Hid : serializable (dict_get d "id") = true)
    by (apply dict_get_serializable; exact Hs).
  destruct Hin as [<-|[<-|[]]];
    cbn [eq_str String.eqb Ascii.eqb Bool.eqb];
    unfold handle_fetch_weekly_report, handle_get_project_data,
      Effects.bind, lift, get_method;
    change (dict_get_or arguments "project_id" PyNone)
      with (dict_get arguments "project_id");
    rewrite Hf; cbn [negb raise];
    unfold on_line_exception; cbn [isinstance exn_str];
    (rewrite print_json_serializable
       by (apply rpc_error_serializable; exact Hid));
    reflexivity.
Qed.

(** X19.  A [tools/call] that names a tool other than the two known
    ones is not an error on the wire: it is answered with a [result]
    whose only member is an [error] text naming the tool. *)
Theorem unknown_tool_is_a_result (request_id : Locals) (line : string)
    (d params : Dict) (w : World) :
  loads line = Return (PyDict d) ->
  all_serializable d = true ->
  eq_str (dict_get d "jsonrpc") "2.0" = true ->
  dict_get d "method" = PyStr "tools/call" ->
  dict_get_or d "params" (PyDict []) = PyDict params ->
  serializable (dict_get params "name") = true ->
  eq_str (dict_get params "name") "fetch_weekly_report" = false ->
  eq_str (dict_get params "name") "get_project_data" = false ->
  handle_line loads client request_id line w =
  ((Wrote (rpc_result (dict_get d "id")
             (PyDict [("error",
                       PyStr ("Unknown tool: " ++ py_str (dict_get params "name")))])),
    Some (dict_get d "id")), w).
Proof.
  intros Hl Hs Hj Hm Hp Hn Hf Hg.
  unfold handle_line, try_block. rewrite Hl, Hj. cbn [negb].
  rewrite Hm, Hp. unfold build_response.
  cbn [eq_str String.eqb Ascii.eqb Bool.eqb].
  unfold Effects.bind at 1. unfold lift at 1. cbn [get_method].
  change (dict_get_or params "name" PyNone) with (dict_get params "name").
  unfold Effects.bind at 1. unfold lift at 1.
  rewrite Hf, Hg. unfold Effects.bind, ret.
  rewrite print_json_serializable; [reflexivity|].
  simpl. rewrite (dict_get_serializable d "id" Hs). reflexivity.
Qed.

(** X20.  The loop stops at the first empty string [readline] returns
    (the end of input): nothing after it is read, answered or sent to
    the backend. *)
Theorem loop_stops_at_end_of_input (request_id : Locals) (before rest : list string)
    (w : World) :
  Forall (fun line => line <> "") before ->
  read_loop loads client request_id (before ++ "" :: rest) w =
  read_loop loads client request_id before w.
Proof.
  revert request_id w.
  induction before as [|line more IH]; intros request_id w Hne; [reflexivity|].
  inversion Hne as [|? ? Hline Hmore]; subst.
  cbn [app read_loop].
  destruct (String.eqb_spec line ""); [contradiction|].
  destruct (String.eqb (Json.strip line) ""); [exact (IH _ _ Hmore)|].
  destruct (handle_line loads client request_id (Json.strip line) w)
    as [[[response|e] request_id'] w']; [|reflexivity].
  now rewrite (IH request_id' w' Hmore).
Qed.

End StdioExtras.

Section StdioExtraRuns.
Import Py Effects Client Stdio Spec Scenario StdioVocabulary StdioScenario.

Lemma non_object_request_gets_stale_id_witness :
  exists response,
    handle_line Json.json_loads None (Some (PyInt 7)) (Json.strip array_line)
      (world healthy) = ((Wrote response, Some (PyInt 7)), world healthy) /\
    id_of response = Some (PyInt 7).
Proof.
  destruct (non_object_request_gets_stale_id Json.json_loads None (Some (PyInt 7))
              (Json.strip array_line) (PyList [PyInt 1]) (world healthy)
              eq_refl eq_refl eq_refl) as (response & Hrun & _ & Hid).
  exists response. split; [exact Hrun|exact Hid].
Defined.

(** The same through the loop: the array that follows request 7 is
    answered under id 7. *)
Example stale_id_run :
  map id_of (fst (handle_stdio_mode Json.json_loads None [request_seven; array_line]
                    (world healthy)))
  = [Some (PyInt 7); Some (PyInt 7)].
Proof. reflexivity. Qed.

Lemma wrong_version_rejected_witness :
  handle_stdio_mode Json.json_loads None [old_version_line] (world healthy)
  = ([rpc_error (PyInt 3) (-32600) "Invalid Request: Must be JSON-RPC 2.0"],
     world healthy).
Proof.
  unfold handle_stdio_mode. cbn [read_loop].
  change (String.eqb old_version_line "") with false.
  change (String.eqb (Json.strip old_version_line) "") with false.
  cbv iota.
  rewrite (wrong_version_rejected Json.json_loads None None (Json.strip old_version_line)
             [("jsonrpc", PyStr "1.0"); ("id", PyInt 3); ("method", PyStr "tools/list")]
             (world healthy) eq_refl eq_refl eq_refl).
  reflexivity.
Defined.

Lemma unknown_method_rejected_witness :
  handle_stdio_mode Json.json_loads None [unknown_method_line] (world healthy)
  = ([rpc_error (PyInt 4) (-32601) "Method not found: prompts/list"], world healthy).
Proof.
  unfold handle_stdio_mode. cbn [read_loop].
  change (String.eqb unknown_method_line "") with false.
  change (String.eqb (Json.strip unknown_method_line) "") with false.
  cbv iota.
  rewrite (unknown_method_rejected Json.json_loads None None
             (Json.strip unknown_method_line)
             [("jsonrpc", PyStr "2.0"); ("id", PyInt 4); ("method", PyStr "prompts/list")]
             (world healthy) eq_refl eq_refl eq_refl eq_refl).
  reflexivity.
Defined.

Lemma only_tool_calls_reach_backend_witness :
  snd (handle_line Json.json_loads (Some (mkClient "secret-key")) None
         (Json.strip request_seven) (world healthy)) = world healthy.
Proof.
  apply only_tool_calls_reach_backend.
  intros d Hd. vm_compute in Hd. inversion Hd; subst. reflexivity.
Defined.

Lemma invalid_tool_arguments_are_internal_errors_witness :
  handle_line Json.json_loads (Some (mkClient "secret-key")) None
    (Json.strip call_without_id) (world healthy)
  = ((Wrote (rpc_error (PyInt 5) (-32603) "Internal error: project_id is required"),
      Some (PyInt 5)), world healthy).
Proof.
  apply (invalid_tool_arguments_are_internal_errors Json.json_loads
           (Some (mkClient "secret-key")) None (Json.strip call_without_id)
           [("jsonrpc", PyStr "2.0"); ("id", PyInt 5); ("method", PyStr "tools/call");
            ("params", PyDict [("name", PyStr "get_project_data");
                               ("arguments", PyDict [])])]
           [("name", PyStr "get_project_data"); ("arguments", PyDict [])]
           [] "get_project_data" (world healthy));
    try reflexivity.
  simpl; auto.
Defined.

Lemma unknown_tool_is_a_result_witness :
  handle_line Json.json_loads None None (Json.strip call_unknown_tool) (world healthy)
  = ((Wrote (rpc_result (PyInt 6) (PyDict [("error", PyStr "Unknown tool: drop_all")])),
      Some (PyInt 6)), world healthy).
Proof.
  apply (unknown_tool_is_a_result Json.json_loads None None
           (Json.strip call_unknown_tool)
           [("jsonrpc", PyStr "2.0"); ("id", PyInt 6); ("method", PyStr "tools/call");
            ("params", PyDict [("name", PyStr "drop_all"); ("arguments", PyDict [])])]
           [("name", PyStr "drop_all"); ("arguments", PyDict [])] (world healthy));
    reflexivity.
Defined.

Lemma loop_stops_at_end_of_input_witness :
  handle_stdio_mode Json.json_loads None [request_seven; ""; call_project_data]
    (world healthy)
  = handle_stdio_mode Json.json_loads None [request_seven] (world healthy).
Proof.
  apply (loop_stops_at_end_of_input Json.json_loads None None [request_seven]
           [call_project_data] (world healthy)).
  repeat constructor. discriminate.
Defined.

End StdioExtraRuns.

(* ================================================================== *)
(** * Properties of [security.py] *)
(* ================================================================== *)

Section SecurityExtras.
Import Py Security SecurityVocabulary.

(** X21.  [validate_project_id] accepts exactly the positive integers
    (and [True], which Python counts as the integer 1) and hands the
    value back unchanged; everything else, negative numbers, zero and
    numeric strings included, raises [ValueError].  Whatever it accepts
    also passes the [if not project_id] guard of the tool handlers. *)
Theorem validate_project_id_accepts (x : PyVal) :
  (forall y, validate_project_id x = Return y <->
             y = x /\ ((exists n, x = PyInt n /\ (0 < n)%Z) \/ x = PyBool true)) /\
  (forall e, validate_project_id x = Raise e ->
             e = ValueError "Project ID must be a positive integer") /\
  (forall y, validate_project_id x = Return y -> truthy x = true).
Proof.
  unfold validate_project_id.
  split; [|split].
  - intros y. split.
    + destruct x as [| [] | n | | | | | ]; simpl; try discriminate.
      * intros H; inversion H; auto.
      * destruct (Z.leb_spec n 0) as [Hle|Hlt]; [discriminate|].
        intros Hy; inversion Hy; split; [reflexivity|left; eauto].
    + intros [-> [(n & -> & Hn)| ->]]; simpl; [|reflexivity].
      destruct (Z.leb_spec n 0); [lia|reflexivity].
  - intros e. destruct (_ || _)%bool; [|discriminate].
    intros H; inversion H; reflexivity.
  - intros y. destruct x as [| [] | n | | | | | ]; simpl; try discriminate.
    + reflexivity.
    + destruct (Z.leb_spec n 0); [discriminate|].
      intros _. destruct (Z.eqb_spec n 0); [lia|reflexivity].
Qed.

Lemma validate_project_id_accepts_witness :
  validate_project_id (PyInt 42) = Return (PyInt 42).
Proof.
  apply (proj1 (validate_project_id_accepts (PyInt 42))).
  split; [reflexivity|left; exists 42%Z; split; [reflexivity|lia]].
Defined.

Lemma forallb_seq (f : nat -> bool) (start len x : nat) :
  forallb f (seq start len) = true -> start <= x < start + len -> f x = true.
Proof.
  intros Hall Hx. rewrite forallb_forall in Hall. apply Hall, in_seq. exact Hx.
Qed.

Lemma in_range_digit (c lo hi : ascii) (l h : nat) :
  nat_of_ascii lo = 48 + l -> nat_of_ascii hi = 48 + h ->
  in_range c lo hi = true ->
  exists a, c = digit a /\ l <= a <= h.
Proof.
  unfold in_range. intros Hlo Hhi H.
  apply andb_prop in H. destruct H as [H1 H2].
  apply Nat.leb_le in H1, H2.
  exists (nat_of_ascii c - 48). split; [|lia].
  unfold digit. replace (48 + (nat_of_ascii c - 48)) with (nat_of_ascii c) by lia.
  now rewrite ascii_nat_embedding.
Qed.

Lemma at_end_cases (cs : list ascii) :
  at_end cs = true -> cs = [] \/ cs = [ascii_of_nat 10].
Proof.
  destruct cs as [|c [|c' rest]]; simpl; try discriminate; auto.
  intros H. apply Ascii.eqb_eq in H. subst. auto.
Qed.

Lemma year_prints (a b : nat) :
  2 <= a <= 9 -> b <= 9 ->
  str_of_nat (2000 + 10 * a + b) =
  String "2" (String "0" (String (digit a) (String (digit b) EmptyString))).
Proof.
  intros Ha Hb.
  assert (Hall :
    forallb (fun a =>
      forallb (fun b =>
        String.eqb (str_of_nat (2000 + 10 * a + b))
          (String "2" (String "0" (String (digit a) (String (digit b) EmptyString)))))
        (seq 0 10)) (seq 2 8) = true) by (vm_compute; reflexivity).
  apply (forallb_seq _ 2 8 a) in Hall; [|lia].
  apply (forallb_seq _ 0 10 b) in Hall; [|lia].
  now apply String.eqb_eq in Hall.
Qed.

Lemma two_digits (a b : nat) :
  1 <= a <= 9 -> b <= 9 ->
  str_of_nat (10 * a + b) = String (digit a) (String (digit b) EmptyString).
Proof.
  intros Ha Hb.
  assert (Hall :
    forallb (fun a =>
      forallb (fun b =>
        String.eqb (str_of_nat (10 * a + b))
          (String (digit a) (String (digit b) EmptyString)))
        (seq 0 10)) (seq 1 9) = true) by (vm_compute; reflexivity).
  apply (forallb_seq _ 1 9 a) in Hall; [|lia].
  apply (forallb_seq _ 0 10 b) in Hall; [|lia].
  now apply String.eqb_eq in Hall.
Qed.

Lemma one_digit (a : nat) :
  1 <= a <= 9 -> str_of_nat a = String (digit a) EmptyString.
Proof.
  intros Ha.
  assert (Hall :
    forallb (fun a => String.eqb (str_of_nat a) (String (digit a) EmptyString))
      (seq 1 9) = true) by (vm_compute; reflexivity).
  apply (forallb_seq _ 1 9 a) in Hall; [|lia].
  now apply String.eqb_eq in Hall.
Qed.

(** Every label of a year from 2020 to 2099 and a week from 1 to 53
    matches, with and without a line feed at its end (by running the
    matcher on all of them). *)
Lemma label_matches (y n : nat) :
  2020 <= y <= 2099 -> 1 <= n <= 53 ->
  week_format_matches (week_label y n) = true /\
  week_format_matches (week_label y n ++ line_feed) = true.
Proof.
  intros Hy Hn.
  assert (Hall :
    forallb (fun y =>
      forallb (fun n =>
        (week_format_matches (week_label y n)
         && week_format_matches (week_label y n ++ line_feed))%bool)
        (seq 1 53)) (seq 2020 80) = true) by (vm_compute; reflexivity).
  apply (forallb_seq _ 2020 80 y) in Hall; [|lia].
  apply (forallb_seq _ 1 53 n) in Hall; [|lia].
  now apply andb_prop in Hall.
Qed.

Lemma week_number_cases (cs : list ascii) :
  week_number_matches cs = true ->
  exists n tail,
    1 <= n <= 53 /\ (tail = [] \/ tail = [ascii_of_nat 10]) /\
    cs = (list_ascii_of_string (str_of_nat n) ++ tail)%list.
Proof.
  destruct cs as [|c1 rest]; [discriminate|]. cbn [week_number_matches].
  intros H. apply orb_prop in H. destruct H as [H|H].
  - apply andb_prop in H. destruct H as [Hc Hend].
    destruct (in_range_digit _ "1" "9" 1 9 eq_refl eq_refl Hc) as (a & -> & Ha).
    exists a, rest.
    split; [lia|split; [exact (at_end_cases _ Hend)|]].
    rewrite one_digit by lia. reflexivity.
  - destruct rest as [|c2 rest']; [discriminate|].
    apply orb_prop in H. destruct H as [H|H].
    + apply andb_prop in H. destruct H as [H Hend].
      apply andb_prop in H. destruct H as [Hc1 Hc2].
      destruct (in_range_digit _ "1" "4" 1 4 eq_refl eq_refl Hc1) as (a & -> & Ha).
      destruct (in_range_digit _ "0" "9" 0 9 eq_refl eq_refl Hc2) as (b & -> & Hb).
       exists (10 * a + b), rest'.
      split; [lia|split; [exact (at_end_cases _ Hend)|]].
      rewrite two_digits by lia. reflexivity.
    + apply andb_prop in H. destruct H as [H Hend].
      apply andb_prop in H. destruct H as [Hc1 Hc2].
      apply Ascii.eqb_eq in Hc1. subst c1.
      destruct (in_range_digit _ "0" "3" 0 3 eq_refl eq_refl Hc2) as (b & -> & Hb).
      exists (10 * 5 + b), rest'.
      split; [lia|split; [exact (at_end_cases _ Hend)|]].
      rewrite two_digits by lia. reflexivity.
Qed.

Lemma append_empty (s : string) : s ++ "" = s.
Proof. induction s as [|c s IH]; simpl; [reflexivity|now rewrite IH]. Qed.

Lemma string_of_list_ascii_app (a b : list ascii) :
  string_of_list_ascii (a ++ b) = string_of_list_ascii a ++ string_of_list_ascii b.
Proof. induction a as [|c a IH]; simpl; [reflexivity|now rewrite IH]. Qed.

(** X22.  [validate_week_format] accepts exactly the texts made of a
    year from 2020 to 2099, ["-W"] and a week from 1 to 53 written
    without leading zero, optionally followed by one line feed, and
    hands the value back unchanged.  A zero-padded week, as in
    "2025-W01", is refused. *)
Theorem validate_week_format_accepts (s : string) :
  (forall v, validate_week_format (PyStr s) = Return v <->
             v = PyStr s /\
             exists y n, 2020 <= y <= 2099 /\ 1 <= n <= 53 /\
                         (s = week_label y n \/ s = week_label y n ++ line_feed)) /\
  (forall c1 c2 c3 c4 rest,
     s = String c1 (String c2 (String c3 (String c4 ("-W0" ++ rest)))) ->
     validate_week_format (PyStr s) =
     Raise (ValueError "Week format must be YYYY-WXX (1-53)")).
Proof.
  assert (Hiff : week_format_matches s = true <->
                 exists y n, 2020 <= y <= 2099 /\ 1 <= n <= 53 /\
                             (s = week_label y n \/ s = week_label y n ++ line_feed)).
  { split.
    - unfold week_format_matches.
      destruct (list_ascii_of_string s)
        as [|c1 [|c2 [|c3 [|c4 [|c5 [|c6 rest]]]]]] eqn:Hs; try discriminate.
      intros H.
      repeat (apply andb_prop in H; destruct H as [H ?Hc]).
      apply Ascii.eqb_eq in H, Hc4, Hc0, Hc1. subst c1 c2 c5 c6.
      destruct (in_range_digit _ "2" "9" 2 9 eq_refl eq_refl Hc3) as (a & -> & Ha).
      destruct (in_range_digit _ "0" "9" 0 9 eq_refl eq_refl Hc2) as (b & -> & Hb).
      
      destruct (week_number_cases rest Hc) as (n & tail & Hn & Htail & ->).
      exists (2000 + 10 * a + b), n.
      split; [lia|split; [exact Hn|]].
      rewrite <- (string_of_list_ascii_of_string s), Hs.
      unfold week_label. rewrite year_prints by lia.
      cbn [string_of_list_ascii String.append].
      rewrite string_of_list_ascii_app, string_of_list_ascii_of_string.
      destruct Htail as [->| ->]; [left|right].
      + cbn [string_of_list_ascii]. now rewrite append_empty.
      + reflexivity.
    - intros (y & n & Hy & Hn & [->| ->]).
      + exact (proj1 (label_matches y n Hy Hn)).
      + exact (proj2 (label_matches y n Hy Hn)). }
  split.
  - intros v. unfold validate_week_format. split.
    + destruct (week_format_matches s) eqn:Hm; simpl; [|discriminate].
      intros H; inversion H; subst. split; [reflexivity|]. now apply Hiff.
    + intros [-> Hex]. apply Hiff in Hex. now rewrite Hex.
  - intros c1 c2 c3 c4 rest ->.
    unfold validate_week_format, week_format_matches.
    cbn [list_ascii_of_string String.append week_number_matches].
    replace (in_range "0" "1" "9") with false by reflexivity.
    replace (in_range "0" "1" "4") with false by reflexivity.
    replace (Ascii.eqb "0" "5") with false by reflexivity.
    cbn [andb orb].
    destruct (list_ascii_of_string rest); rewrite ?andb_false_r; reflexivity.
Qed.

Lemma validate_week_format_accepts_witness :
  validate_week_format (PyStr "2025-W41") = Return (PyStr "2025-W41") /\
  validate_week_format (PyStr "2025-W01") =
    Raise (ValueError "Week format must be YYYY-WXX (1-53)").
Proof.
  split.
  - apply (proj1 (validate_week_format_accepts "2025-W41")).
    split; [reflexivity|].
    exists 2025, 41. split; [lia|split; [lia|left; reflexivity]].
  - apply (proj2 (validate_week_format_accepts "2025-W01")
             "2"%char "0"%char "2"%char "5"%char "1").
    reflexivity.
Defined.

(** An induction principle for values that reaches into lists and
    dicts. *)
Lemma PyVal_nested_ind (P : PyVal -> Prop) :
  P PyNone ->
  (forall b, P (PyBool b)) ->
  (forall n, P (PyInt n)) ->
  (forall l, P (PyFloat l)) ->
  (forall s, P (PyStr s)) ->
  (forall l, Forall P l -> P (PyList l)) ->
  (forall d, Forall (fun kv => P (snd kv)) d -> P (PyDict d)) ->
  (forall attrs, P (PyObj attrs)) ->
  forall x, P x.
Proof.
  intros HNone HBool HInt HFloat HStr HList HDict HObj.
  fix IH 1. intros x. destruct x as [| b | n | l | s | items | entries | attrs].
  - exact HNone.
  - apply HBool.
  - apply HInt.
  - apply HFloat.
  - apply HStr.
  - apply HList. induction items as [|y rest IHrest]; constructor; [apply IH|exact IHrest].
  - apply HDict.
    induction entries as [|[k y] rest IHrest]; constructor; [apply IH|exact IHrest].
  - apply HObj.
Qed.

Lemma keep_chars_idempotent (s : string) : keep_chars (keep_chars s) = keep_chars s.
Proof.
  induction s as [|c s IH]; simpl; [reflexivity|].
  destruct (keeps c) eqn:Hk; simpl; [rewrite Hk, IH|]; auto.
Qed.

Lemma keeps_dropped (c : ascii) : keeps c = negb (dropped c).
Proof. destruct c as [[] [] [] [] [] [] [] []]; reflexivity. Qed.

Lemma keep_chars_without (s : string) : keep_chars s = without dropped s.
Proof.
  unfold without. induction s as [|c s IH]; simpl; [reflexivity|].
  rewrite keeps_dropped. destruct (dropped c); simpl; [exact IH|now rewrite IH].
Qed.

Lemma keep_chars_from_space (s : string) : from_space s = true -> keep_chars s = s.
Proof.
  unfold from_space. induction s as [|c s IH]; [reflexivity|].
  cbn [list_ascii_of_string forallb keep_chars].
  intros H. apply andb_prop in H. destruct H as [Hc Hs].
  assert (Hk : keeps c = true) by (unfold keeps; cbv zeta; now rewrite Hc).
  now rewrite Hk, (IH Hs).
Qed.

(** X23.  [sanitize_input] takes out of every string value, however
    deeply it is nested in lists and dicts, the control characters
    U+0000 to U+001F other than tab, line feed and carriage return, and
    nothing else: the other characters stay in their order.  Sanitizing
    twice is the same as sanitizing once.  A value whose strings hold no
    byte below 32 is handed back unchanged, so DEL (U+007F) and the
    control characters U+0080 to U+009F stay where they are.  The keys of
    a dict are handed back as they are, control characters included. *)
Theorem sanitize_input_drops_c0_controls (data : PyVal) :
  string_values (sanitize_input data) = map (without dropped) (string_values data) /\
  sanitize_input (sanitize_input data) = sanitize_input data /\
  (forallb from_space (string_values data) = true -> sanitize_input data = data) /\
  (forall d, data = PyDict d ->
     exists d', sanitize_input data = PyDict d' /\ keys d' = keys d).
Proof.
  split; [|split; [|split]].
  - induction data using PyVal_nested_ind; simpl; try reflexivity.
    + now rewrite keep_chars_without.
    + induction H as [|y rest Hy _ IH]; simpl; [reflexivity|].
      now rewrite map_app, Hy, IH.
    + induction H as [|[k y] rest Hy _ IH]; simpl; [reflexivity|].
      simpl in Hy. now rewrite map_app, Hy, IH.
  - induction data using PyVal_nested_ind; simpl; try reflexivity.
    + now rewrite keep_chars_idempotent.
    + f_equal. induction H as [|y rest Hy _ IH]; simpl; [reflexivity|].
      now rewrite Hy, IH.
    + f_equal. induction H as [|[k y] rest Hy _ IH]; simpl; [reflexivity|].
      simpl in Hy. now rewrite Hy, IH.
  - induction data using PyVal_nested_ind; simpl; try reflexivity.
    + intros Hs. rewrite andb_true_r in Hs. now rewrite (keep_chars_from_space _ Hs).
    + intros Hs. f_equal.
      induction H as [|y rest Hy _ IH]; simpl; [reflexivity|].
      simpl in Hs. rewrite forallb_app in Hs. apply andb_prop in Hs.
      destruct Hs as [Hy' Hrest]. now rewrite (Hy Hy'), (IH Hrest).
    + intros Hs. f_equal.
      induction H as [|[k y] rest Hy _ IH]; simpl; [reflexivity|].
      simpl in Hs, Hy. rewrite forallb_app in Hs. apply andb_prop in Hs.
      destruct Hs as [Hy' Hrest]. now rewrite (Hy Hy'), (IH Hrest).
  - intros d ->. simpl. eexists. split; [reflexivity|].
    unfold keys. rewrite map_map. reflexivity.
Qed.

Lemma sanitize_input_drops_c0_controls_witness :
  let bell := String (ascii_of_nat 7) EmptyString in
  let delete := String (ascii_of_nat 127) EmptyString in
  let next_line := Json.encode [133%N] in
  sanitize_input
    (PyDict [("k" ++ bell,
              PyList [PyStr ("a" ++ bell ++ delete ++ next_line ++ "b"); PyInt 1])])
  = PyDict [("k" ++ bell, PyList [PyStr ("a" ++ delete ++ next_line ++ "b"); PyInt 1])] /\
  sanitize_input (PyList [PyStr (delete ++ next_line)])
  = PyList [PyStr (delete ++ next_line)].
Proof.
  intros bell delete next_line. split.
  - destruct (proj2 (proj2 (proj2 (sanitize_input_drops_c0_controls
              (PyDict [("k" ++ bell,
                        PyList [PyStr ("a" ++ bell ++ delete ++ next_line ++ "b");
                                PyInt 1])]))))
              _ eq_refl) as (d' & Hd & _).
    rewrite Hd. simpl in Hd. inversion Hd. reflexivity.
  - apply (proj1 (proj2 (proj2 (sanitize_input_drops_c0_controls
              (PyList [PyStr (delete ++ next_line)]))))).
    reflexivity.
Defined.



End SecurityExtras.

(* ================================================================== *)
(** * Further properties of the FastAPI handlers, the decorator and the
      configuration *)
(* ================================================================== *)

Section HandlerExtras.
Import Py Effects Client Stdio Spec.



Lemma build_response_offline (method params request_id : PyVal) (w : World) :
  snd (build_response None method params request_id w) = w.
Proof.
  unfold build_response.
  repeat match goal with
         | |- context [if ?b then _ else _] => destruct b
         end; try reflexivity.
  unfold Effects.bind, lift, ret.
  destruct (get_method params "name" PyNone) as [name|e]; [|reflexivity].
  destruct (get_method params "arguments" (PyDict [])) as [args|e]; [|reflexivity].
  unfold handle_fetch_weekly_report, handle_get_project_data, with_client,
    Effects.bind, lift, raise, ret.
  repeat match goal with
         | |- context [if ?b then _ else _] => destruct b
         | |- context [match get_method ?x ?k ?v with _ => _ end] =>
             destruct (get_method x k v)
         end; reflexivity.
Qed.

(** X26.  With no client on the server state, as when the loop runs
    without the state having been initialised, nothing the loop reads
    can reach the backend: whatever the lines, the world after the loop
    is the world before it. *)
Theorem stdio_without_client_is_offline (loads : string -> Outcome PyVal)
    (lines : list string) (w : World) :
  snd (handle_stdio_mode loads None lines w) = w.
Proof.
  unfold handle_stdio_mode. generalize (@None PyVal) as request_id.
  induction lines as [|line rest IH]; intros request_id; [reflexivity|].
  cbn [read_loop].
  destruct (String.eqb line ""); [reflexivity|].
  destruct (String.eqb (Json.strip line) ""); [apply IH|].
  assert (Hline : snd (handle_line loads None request_id (Json.strip line) w) = w).
  { unfold handle_line, try_block.
    destruct (loads (Json.strip line)) as [v|e].
    - destruct v as [| | | | | |d|];
        try (destruct (print_json _); reflexivity).
      destruct (negb (eq_str (dict_get d "jsonrpc") "2.0")).
      + destruct (print_json _); [reflexivity|destruct (print_json _); reflexivity].
      + pose proof (build_response_offline (dict_get d "method")
                      (dict_get_or d "params" (PyDict [])) (dict_get d "id") w) as Hb.
        destruct (build_response None _ _ _ w) as [[response|e] w']; simpl in Hb; subst w'.
        * destruct (print_json response); [reflexivity|].
          destruct (print_json _); reflexivity.
        * destruct (print_json _); reflexivity.
    - destruct (print_json _); reflexivity. }
  destruct (handle_line loads None request_id (Json.strip line) w)
    as [[[response|e] request_id'] w']; simpl in Hline; subst w'; [|reflexivity].
  specialize (IH request_id').
  destruct (read_loop loads None request_id' rest w) as [more w'']; exact IH.
Qed.

End HandlerExtras.

Section DecoratorExtras.
Import Py Effects Client.

(** X27.  The back-off does not grow: with [base=1] the wait generator
    of both decorators yields 1 at every step, and the cap of 30 is
    never reached. *)
Theorem backoff_wait_is_constant (n : nat) : wait_gen n = 1%Z.
Proof.
  unfold wait_gen, Backoff.expo. rewrite Z.pow_1_l by lia. reflexivity.
Qed.

End DecoratorExtras.

Section ConfigExtras.
Import Py Core Config.




End ConfigExtras.
